(** * sfp_leakix: the LeakIX module of SpiderFoot

    A shallow embedding of [modules/sfp_leakix.py]: the values the module
    receives from [json.loads], the operations of the host language it
    applies to them, the methods [queryHost], [parseAPIResponse] and
    [handleEvent], and the properties of its guards on requests and of the
    extraction of events from a decoded document. *)

From Stdlib Require Import ZArith String Ascii List Lia DecimalString.
From stdpp Require Import gmap strings.
Import ListNotations.

Set Warnings "-register-all".
Local Open Scope string_scope.
Local Open Scope Z_scope.

(** ** Values of the host language

    What [json.loads] can return: [None], a bool, an int, a float, a str, a
    list, or a dict with str keys.  A dict keeps its insertion order (it is
    printed by [str] in that order, and iterated in that order), so it is an
    association list; [json.loads] leaves no duplicate key, and a lookup
    takes the first binding of a key.

    A str is a [string] with one [ascii] per character, which covers the
    strings whose code points are below 256.  A float is held as the text
    [repr] prints for it (["1.5"], ["1e+22"], ["nan"]): the module only tests
    a float for truth and prints it. *)
Inductive pyval : Type :=
| PyNone
| PyBool (b : bool)
| PyInt (n : Z)
| PyFloat (repr : string)
| PyStr (s : string)
| PyList (l : list pyval)
| PyDict (d : list (string * pyval)).

(** Exceptions the module can let escape. *)
Inductive exn : Type :=
| AttributeError
| TypeError
| ValueError.

Module Py.

(** Truth value of an object, as [if x:] tests it. *)
Definition truthy (v : pyval) : bool :=
  match v with
  | PyNone => false
  | PyBool b => b
  | PyInt n => negb (n =? 0)
  | PyFloat r => negb (String.eqb r "0.0" || String.eqb r "-0.0")
  | PyStr s => negb (String.eqb s EmptyString)
  | PyList l => match l with [] => false | _ => true end
  | PyDict d => match d with [] => false | _ => true end
  end.

(** [d.get(k)] on the bindings of a dict: the value, or [None]. *)
Fixpoint dict_get (d : list (string * pyval)) (k : string) : pyval :=
  match d with
  | [] => PyNone
  | (k', v) :: d' => if String.eqb k' k then v else dict_get d' k
  end.

(** [k in d]. *)
Fixpoint dict_has (d : list (string * pyval)) (k : string) : bool :=
  match d with
  | [] => false
  | (k', _) :: d' => String.eqb k' k || dict_has d' k
  end.

(** The characters of a str, each as a str of length one. *)
Fixpoint chars (s : string) : list pyval :=
  match s with
  | EmptyString => []
  | String c s' => PyStr (String c EmptyString) :: chars s'
  end.

(** [sep.join(l)] for a list of str. *)
Fixpoint join (sep : string) (l : list string) : string :=
  match l with
  | [] => EmptyString
  | [s] => s
  | s :: l' => s ++ sep ++ join sep l'
  end.

(** *** [repr] and [str] *)

Definition hex_digit (n : N) : ascii :=
  (if n <? 10 then ascii_of_N (48 + n) else ascii_of_N (87 + n))%N.

(** [\xHH], lower case. *)
Definition hex_escape (c : ascii) : string :=
  let n := N_of_ascii c in
  String "\" (String "x" (String (hex_digit (n / 16)) (String (hex_digit (n mod 16)) EmptyString))).

(** [str.isprintable] on one character below 256. *)
Definition printable (c : ascii) : bool :=
  let n := N_of_ascii c in
  ((32 <=? n) && (n <=? 126) || (161 <=? n) && negb (n =? 173))%N.

Definition squote : ascii := "'"%char.
Definition dquote : ascii := ascii_of_N 34.

Fixpoint contains (c : ascii) (s : string) : bool :=
  match s with
  | EmptyString => false
  | String c' s' => Ascii.eqb c c' || contains c s'
  end.

Definition repr_char (quote : ascii) (c : ascii) : string :=
  if Ascii.eqb c quote || Ascii.eqb c "\"%char then String "\" (String c EmptyString)
  else if Ascii.eqb c (ascii_of_N 9) then "\t"
  else if Ascii.eqb c (ascii_of_N 10) then "\n"
  else if Ascii.eqb c (ascii_of_N 13) then "\r"
  else if printable c then String c EmptyString
  else hex_escape c.

Fixpoint repr_chars (quote : ascii) (s : string) : string :=
  match s with
  | EmptyString => EmptyString
  | String c s' => repr_char quote c ++ repr_chars quote s'
  end.

(** [repr] of a str: single quotes, unless the str holds a single quote
    and no double quote. *)
Definition repr_str (s : string) : string :=
  let quote := if contains squote s && negb (contains dquote s) then dquote else squote in
  String quote (repr_chars quote s ++ String quote EmptyString).

Definition repr_int (n : Z) : string := NilZero.string_of_int (Z.to_int n).

Fixpoint repr (v : pyval) : string :=
  match v with
  | PyNone => "None"
  | PyBool true => "True"
  | PyBool false => "False"
  | PyInt n => repr_int n
  | PyFloat r => r
  | PyStr s => repr_str s
  | PyList l =>
      "[" ++ join ", " (map repr l) ++ "]"
  | PyDict d =>
      "{" ++ join ", " (map (fun kv => repr_str (fst kv) ++ ": " ++ repr (snd kv)) d) ++ "}"
  end.

(** [str(v)]: a str is itself, anything else is its [repr]. *)
Definition str (v : pyval) : string :=
  match v with
  | PyStr s => s
  | _ => repr v
  end.

End Py.

(** ** Collaborators and instance state *)

(** The options of the module ([self.opts]): the two it declares, and
    [_useragent], which the host adds. *)
Record options : Type := {
  api_key : string;
  delay : Z;
  _useragent : string
}.

(** The class defaults of [opts]. *)
Definition opts (ua : string) : options :=
  {| api_key := EmptyString; delay := 1; _useragent := ua |}.

(** Modelled from the spec: the event handed to [handleEvent], an object
    of the host's class [SpiderFootEvent], which is not among the sources.
    By the specification it carries the target, a str, the identity of the
    producing module and its type; these are the three attributes
    [handleEvent] reads. *)
Record event : Type := {
  eventType : string;
  module : string;
  data : string
}.

(** Modelled from the spec: an event the module builds with the host's
    [SpiderFootEvent(type, data, module, source)].  By the specification it
    carries its type, its data, the producing module and the source event,
    and the specification gives the constructor no way to fail: it is the
    constructor of a record, and the data is kept as the value passed. *)
Record produced : Type := SpiderFootEvent {
  pType : string;
  pData : pyval;
  pModule : string;
  pSource : event
}.

(** The arguments of one [fetchUrl] call, and the two entries of its
    result that the module reads: [code], a str or [None], and [content], a
    str or [None]. *)
Record request : Type := {
  url : string;
  headers : list (string * string);
  timeout : Z;
  useragent : string
}.

Record response : Type := {
  code : option string;
  content : option string
}.

(** The instance: [self.opts], [self.results] (a dict used as a set of
    targets), [self.errorState]. *)
Record instance : Type := {
  self_opts : options;
  results : gmap string bool;
  errorState : bool
}.

(** What a call does, in order: the calls on the collaborators
    ([fetchUrl], [time.sleep], [notifyListeners], [debug], [error]) and the
    assignments to the instance. *)
Inductive effect : Type :=
| Fetch (r : request)
| Sleep (d : Z)
| Notify (evt : produced)
| Debug (msg : string)
| Error (msg : string)
| SetResult (key : string)
| SetErrorState.

Inductive outcome (A : Type) : Type :=
| Ret (a : A)
| Raise (e : exn).
Arguments Ret {A} a.
Arguments Raise {A} e.

Definition is_fetch (e : effect) : bool :=
  match e with Fetch _ => true | _ => false end.
Definition is_sleep (e : effect) : bool :=
  match e with Sleep _ => true | _ => false end.
Definition is_notify (e : effect) : bool :=
  match e with Notify _ => true | _ => false end.

(** The events passed to [notifyListeners], in order. *)
Fixpoint notified (t : list effect) : list produced :=
  match t with
  | [] => []
  | Notify evt :: t' => evt :: notified t'
  | _ :: t' => notified t'
  end.

(** The number of [fetchUrl] calls. *)
Definition fetches (t : list effect) : nat := length (List.filter is_fetch t).

(** [self.__name__], which the host sets to the name of the module. *)
Definition module_name : string := "sfp_leakix".

(** [setup]: [results] is the empty dict of [tempStorage()], [errorState]
    is false, and [o] is [opts] once the user's options are written over
    the defaults. *)
Definition setup (o : options) : instance :=
  {| self_opts := o; results := ∅; errorState := false |}.

Definition watchedEvents : list string := ["IP_ADDRESS"].

Definition producedEvents : list string :=
  ["RAW_RIR_DATA"; "GEOINFO"; "TCP_PORT_OPEN"; "OPERATING_SYSTEM";
   "SOFTWARE_USED"; "WEBSERVER_BANNER"; "LEAKSITE_CONTENT"].

(** The instance together with the state of the transport it talks to. *)
Record machine (World : Type) : Type := {
  self : instance;
  world : World
}.
Arguments self {World} m.
Arguments world {World} m.

(** The three ways a call changes a machine. *)
Definition with_world {World} (w : World) (m : machine World) : machine World :=
  {| self := self m; world := w |}.

Definition with_errorState {World} (m : machine World) : machine World :=
  {| self := {| self_opts := self_opts (self m); results := results (self m);
                errorState := true |};
     world := world m |}.

Definition with_result {World} (key : string) (m : machine World) : machine World :=
  {| self := {| self_opts := self_opts (self m);
                results := <[key := true]> (results (self m));
                errorState := errorState (self m) |};
     world := world m |}.

(** The parts of the result of running a computation. *)
Definition outcome_of {A S} (r : outcome A * S * list effect) : outcome A := fst (fst r).
Definition machine_of {A S} (r : outcome A * S * list effect) : S := snd (fst r).
Definition effects_of {A S} (r : outcome A * S * list effect) : list effect := snd r.

(** ** A scripted transport, for the examples

    Its state is the list of the responses still to hand out; [fetchUrl]
    hands out the next one, and one with no code once the script is over.
    [loads_example] decodes two bodies and rejects the rest; [loads_doc]
    decodes every body to one document. *)
Definition scripted (w : list response) (r : request) : response * list response :=
  match w with
  | [] => ({| code := None; content := None |}, [])
  | res :: w' => (res, w')
  end.

Definition loads_example (body : string) : pyval + string :=
  if String.eqb body "{}" then inl (PyDict [])
  else if String.eqb body "null" then inl PyNone
  else inr "Expecting value: line 1 column 1 (char 0)".

Definition loads_doc (doc : pyval) (body : string) : pyval + string := inl doc.

Definition example_event (target : string) : event :=
  {| eventType := "IP_ADDRESS"; module := "sfp_dnsresolve"; data := target |}.

Definition example_response (c : string) (body : option string) : response :=
  {| code := Some c; content := body |}.

(** Documents for the examples: a service that is a number, a document
    with an empty list of services, an empty document, and the [geoip] and
    the service of the specification's location example. *)
Definition doc_number_service : pyval := PyDict [("Services", PyList [PyInt 1])].

Definition doc_no_services : pyval := PyDict [("Services", PyList [])].

Definition doc_empty : pyval := PyDict [].

Definition geoip_example : list (string * pyval) :=
  [("city_name", PyStr "Paris"); ("country_name", PyStr "France")].

Definition service_example : list (string * pyval) :=
  [("port", PyStr "443"); ("geoip", PyDict geoip_example)].

(** A document whose second service is a number, and one whose second leak
    is [null]. *)
Definition doc_service_then_number : pyval :=
  PyDict [("Services", PyList [PyDict service_example; PyInt 1])].

Definition doc_leak_then_null : pyval :=
  PyDict [("Services", PyList [PyDict service_example]);
          ("Leaks", PyList [PyDict [("data", PyStr "dump1")]; PyNone])].

(** A [geoip] whose region is a number, and a service that holds it. *)
Definition geoip_number : list (string * pyval) :=
  [("city_name", PyStr "Paris"); ("region_name", PyInt 75); ("country_name", PyStr "France")].

Definition service_number_geoip : list (string * pyval) :=
  [("port", PyStr "443"); ("geoip", PyDict geoip_number)].

Definition example_machine (w : list response) : machine (list response) :=
  {| self := setup (opts "SpiderFoot"); world := w |}.

(** ** The options as [setup] writes them

    [self.opts] is a dict, and [setup] writes every option of [userOpts]
    over it, key by key in the order of [userOpts.keys()]. *)
Definition default_opts : gmap string pyval :=
  <["api_key" := PyStr EmptyString]> (<["delay" := PyInt 1]> ∅).

Definition setup_opts (opts : gmap string pyval) (userOpts : list (string * pyval)) :
    gmap string pyval :=
  fold_left (fun o opt => <[opt := Py.dict_get userOpts opt]> o) (map fst userOpts) opts.

Section Leakix.

(** The transport: its own state, and [fetchUrl] on it. *)
Variable World : Type.
Variable fetchUrl : World -> request -> response * World.

(** [json.loads]: the decoded value, or the message of the exception. *)
Variable json_loads : string -> pyval + string.

Abbreviation machine := (machine World).

(** A computation: from a machine to an outcome, the machine it leaves
    and the effects it had, also when it raises. *)
Definition M (A : Type) : Type := machine -> outcome A * machine * list effect.

Definition ret {A} (a : A) : M A := fun m => (Ret a, m, []).

Definition raise {A} (e : exn) : M A := fun m => (Raise e, m, []).

Definition bind {A B} (c : M A) (k : A -> M B) : M B :=
  fun m =>
    match c m with
    | (Ret a, m1, t1) => let '(o, m2, t2) := k a m1 in (o, m2, (t1 ++ t2)%list)
    | (Raise e, m1, t1) => (Raise e, m1, t1)
    end.

Notation "'let*' x := c 'in' k" := (bind c (fun x => k))
  (at level 10, x name, c at level 100, k at level 200).
Notation "c >>> k" := (bind c (fun _ => k))
  (at level 100, k at level 200, right associativity).

Definition emit (e : effect) : M unit := fun m => (Ret tt, m, [e]).

Definition get_self : M instance := fun m => (Ret (self m), m, []).

(** Modelled from the spec: [sf.debug], [sf.error] and [notifyListeners]
    belong to the host and are not among the sources; each is a call on a
    collaborator and is recorded as an effect. *)
Definition debug (msg : string) : M unit := emit (Debug msg).
Definition error (msg : string) : M unit := emit (Error msg).
Definition notifyListeners (evt : produced) : M unit := emit (Notify evt).

(** [self.sf.fetchUrl(...)]. *)
Definition fetch (r : request) : M response :=
  fun m =>
    let '(res, w) := fetchUrl (world m) r in
    (Ret res, with_world w m, [Fetch r]).

(** [time.sleep(d)]: a negative length is a [ValueError]. *)
Definition sleep (d : Z) : M unit :=
  fun m => (if d <? 0 then Raise ValueError else Ret tt, m, [Sleep d]).

(** [self.errorState = True]. *)
Definition set_errorState : M unit :=
  fun m => (Ret tt, with_errorState m, [SetErrorState]).

(** [self.results[key] = True]. *)
Definition set_result (key : string) : M unit :=
  fun m => (Ret tt, with_result key m, [SetResult key]).

(** [for x in l: body(x)]. *)
Fixpoint for_each {A} (body : A -> M unit) (l : list A) : M unit :=
  match l with
  | [] => ret tt
  | x :: l' => body x >>> for_each body l'
  end.

(** [v.get(k)]: only a dict has [get]. *)
Definition get (v : pyval) (k : string) : M pyval :=
  match v with
  | PyDict d => ret (Py.dict_get d k)
  | _ => raise AttributeError
  end.

(** The items a [for] loop draws from [v]: the elements of a list, the
    characters of a str, the keys of a dict; nothing else met here is
    iterable. *)
Definition iter (v : pyval) : M (list pyval) :=
  match v with
  | PyList l => ret l
  | PyStr s => ret (Py.chars s)
  | PyDict d => ret (map (fun kv => PyStr (fst kv)) d)
  | _ => raise TypeError
  end.

(** [s + v] for a str [s]: [v] must be a str. *)
Definition add_str (s : string) (v : pyval) : M string :=
  match v with
  | PyStr s' => ret (s ++ s')
  | _ => raise TypeError
  end.

(** The items of a [join]: each must be a str. *)
Fixpoint strs (l : list pyval) : M (list string) :=
  match l with
  | [] => ret []
  | PyStr s :: l' => let* r := strs l' in ret (s :: r)
  | _ :: _ => raise TypeError
  end.

(** [sep.join([_f for _f in l if _f])]. *)
Definition join_truthy (sep : string) (l : list pyval) : M string :=
  let* r := strs (List.filter Py.truthy l) in ret (Py.join sep r).

(** ** The methods *)

(** [res['code'] == c]: the code is a str or [None]. *)
Definition code_is (res : response) (c : string) : bool :=
  match code res with
  | Some c' => String.eqb c' c
  | None => false
  end.

(** [parseAPIResponse]: [None] on a 404; [None] with the error state set
    on a 429 and on any other code that is not 200; on a 200, [None] when
    there is no content or [json.loads] raises, the decoded value
    otherwise. *)
Definition parseAPIResponse (res : response) : M pyval :=
  if code_is res "404" then
    debug "Host not found" >>> ret PyNone
  else if code_is res "429" then
    error "You are being rate-limited by LeakIX" >>>
    set_errorState >>> ret PyNone
  else if negb (code_is res "200") then
    error "Failed to retrieve content from LeakIX" >>>
    set_errorState >>> ret PyNone
  else
    match content res with
    | None => ret PyNone
    | Some body =>
        match json_loads body with
        | inr e => debug ("Error processing JSON response: " ++ e) >>> ret PyNone
        | inl data => ret data
        end
    end.

(** The call [queryHost] makes for [qry]. *)
Definition host_request (o : options) (qry : string) : request :=
  {| url := "https://leakix.net/host/" ++ qry;
     headers := [("Accept", "application/json"); ("api-key", api_key o)];
     timeout := 15;
     useragent := _useragent o |}.

(** [queryHost]: the call, the sleep, then [parseAPIResponse]. *)
Definition queryHost (qry : string) : M pyval :=
  let* s := get_self in
  let* res := fetch (host_request (self_opts s) qry) in
  sleep (delay (self_opts s)) >>>
  parseAPIResponse res.

(** The body of [for service in services], in its four parts. *)
Definition service_port (ev : event) (service : pyval) : M unit :=
  let* port := get service "port" in
  if Py.truthy port then
    let* d := add_str (data ev ++ ":") port in
    notifyListeners (SpiderFootEvent "TCP_PORT_OPEN" (PyStr d) module_name ev)
  else ret tt.

Definition service_headers (ev : event) (service : pyval) : M unit :=
  let* headers := get service "headers" in
  if Py.truthy headers then
    let* servers := get headers "Server" in
    if Py.truthy servers then
      let* l := iter servers in
      for_each
        (fun server =>
           if Py.truthy server then
             notifyListeners (SpiderFootEvent "WEBSERVER_BANNER" server module_name ev)
           else ret tt)
        l
    else ret tt
  else ret tt.

Definition service_geoip (ev : event) (service : pyval) : M unit :=
  let* geoip := get service "geoip" in
  if Py.truthy geoip then
    let* city := get geoip "city_name" in
    let* region := get geoip "region_name" in
    let* country := get geoip "country_name" in
    let* location := join_truthy ", " [city; region; country] in
    if negb (String.eqb location EmptyString) then
      notifyListeners (SpiderFootEvent "GEOINFO" (PyStr location) module_name ev)
    else ret tt
  else ret tt.

Definition service_software (ev : event) (service : pyval) : M unit :=
  let* software := get service "software" in
  if Py.truthy software then
    let* name := get software "name" in
    let* version := get software "version" in
    let* software_version := join_truthy " " [name; version] in
    (if negb (String.eqb software_version EmptyString) then
       notifyListeners (SpiderFootEvent "SOFTWARE_USED" (PyStr software_version) module_name ev)
     else ret tt) >>>
    let* os := get software "os" in
    if Py.truthy os then
      notifyListeners (SpiderFootEvent "OPERATING_SYSTEM" os module_name ev)
    else ret tt
  else ret tt.

Definition service_body (ev : event) (service : pyval) : M unit :=
  service_port ev service >>>
  service_headers ev service >>>
  service_geoip ev service >>>
  service_software ev service.

(** The body of [for leak in leaks]. *)
Definition leak_body (ev : event) (leak : pyval) : M unit :=
  let* leak_data := get leak "data" in
  if Py.truthy leak_data then
    notifyListeners (SpiderFootEvent "LEAKSITE_CONTENT" leak_data module_name ev)
  else ret tt.

Definition extract_services (ev : event) (data : pyval) : M unit :=
  let* services := get data "Services" in
  if Py.truthy services then
    let* l := iter services in for_each (service_body ev) l
  else ret tt.

Definition extract_leaks (ev : event) (data : pyval) : M unit :=
  let* leaks := get data "Leaks" in
  if Py.truthy leaks then
    let* l := iter leaks in for_each (leak_body ev) l
  else ret tt.

(** [handleEvent] from the [RAW_RIR_DATA] event on: what it does with a
    decoded document that is not [None]. *)
Definition extract (ev : event) (data : pyval) : M unit :=
  notifyListeners (SpiderFootEvent "RAW_RIR_DATA" (PyStr (Py.str data)) module_name ev) >>>
  extract_services ev data >>>
  extract_leaks ev data.

(** [v is None]. *)
Definition is_none (v : pyval) : bool :=
  match v with PyNone => true | _ => false end.

(** [handleEvent]: the two guards (error state, target already in
    [results]), the recording of the target, and, for an [IP_ADDRESS] event,
    the query and the extraction. *)
Definition handleEvent (ev : event) : M unit :=
  let eventName := eventType ev in
  let srcModuleName := module ev in
  let eventData := data ev in
  let* s := get_self in
  if errorState s then ret tt
  else
    match results s !! eventData with
    | Some _ => ret tt
    | None =>
        set_result eventData >>>
        (if String.eqb (api_key (self_opts s)) EmptyString then
           debug "You enabled sfp_leakix but did not set an API key, results are limited"
         else ret tt) >>>
        debug ("Received event, " ++ eventName ++ ", from " ++ srcModuleName) >>>
        if existsb (String.eqb eventName) ["IP_ADDRESS"] then
          let* data := queryHost eventData in
          if is_none data then
            debug ("No information found for host " ++ eventData)
          else extract ev data
        else ret tt
    end.

(** ** Sessions

    Modelled from the spec: the delivery of events by the host, which is
    not among the sources.  The host hands the events to [handleEvent] one
    at a time (section 5 of the specification).  An exception that escapes
    a call is the host's to deal with: the session goes on with the
    instance as the call left it. *)
Definition attempt {A} (c : M A) : M unit :=
  fun m => let '(_, m', t) := c m in (Ret tt, m', t).

Definition session (evs : list event) : M unit :=
  for_each (fun ev => attempt (handleEvent ev)) evs.

(** ** The example of the specification *)

Definition doc_example : pyval :=
  PyDict
    [("Services",
      PyList
        [PyDict
           [("port", PyStr "443");
            ("headers", PyDict [("Server", PyList [PyStr "nginx"])]);
            ("geoip", PyDict [("city_name", PyStr "Paris"); ("country_name", PyStr "France")]);
            ("software",
             PyDict [("name", PyStr "nginx"); ("version", PyStr "1.18"); ("os", PyStr "Linux")])]]);
     ("Leaks", PyList [PyDict [("data", PyStr "dump1")]])].

Definition doc_example_str : string :=
  "{'Services': [{'port': '443', 'headers': {'Server': ['nginx']}, " ++
  "'geoip': {'city_name': 'Paris', 'country_name': 'France'}, " ++
  "'software': {'name': 'nginx', 'version': '1.18', 'os': 'Linux'}}], " ++
  "'Leaks': [{'data': 'dump1'}]}".

(** ** Predicates of the properties *)

(** [m'] comes after [m] in a session: the options are the same, what
    was in [results] still is, and an error state that was set still is. *)
Definition grows (m m' : machine) : Prop :=
  self_opts (self m') = self_opts (self m) /\
  (forall k, is_Some (results (self m) !! k) -> is_Some (results (self m') !! k)) /\
  (errorState (self m) = true -> errorState (self m') = true).

(** The effects of [handleEvent] before it looks at the type of the
    event, once it is past its two guards. *)
Definition preamble (ev : event) (o : options) : list effect :=
  (SetResult (data ev) ::
   (if String.eqb (api_key o) EmptyString then
      [Debug "You enabled sfp_leakix but did not set an API key, results are limited"]
    else []) ++
   [Debug ("Received event, " ++ eventType ev ++ ", from " ++ module ev)])%list.

(** Effects with no [fetchUrl] call and no [time.sleep] among them. *)
Definition offline (t : list effect) : bool :=
  forallb (fun e => negb (is_fetch e) && negb (is_sleep e)) t.

(** *** The location string, in the words of the specification

    The fields of [geoip] that are present and not empty, in the order
    city, region, country, joined by a comma and a space. *)
Definition nonempty_str (v : pyval) : list string :=
  match v with
  | PyStr s => if String.eqb s EmptyString then [] else [s]
  | _ => []
  end.

Definition present_nonempty (g : list (string * pyval)) (k : string) : list string :=
  nonempty_str (Py.dict_get g k).

Definition geo_location (g : list (string * pyval)) : string :=
  Py.join ", "
    (present_nonempty g "city_name" ++ present_nonempty g "region_name" ++
     present_nonempty g "country_name")%list.

(** *** The documented shape of a document

    A field is of a shape when it is absent or falsy (it is then skipped)
    or has that shape.  A service is an object whose [port] is a str,
    whose [headers] is an object with a list of str under [Server], whose
    [geoip] and [software] are objects with str fields; a leak is an object
    whose [data] is a str; a document is an object with a list of services
    and a list of leaks. *)
Definition falsy_or (shape : pyval -> bool) (v : pyval) : bool :=
  negb (Py.truthy v) || shape v.

Definition is_str (v : pyval) : bool :=
  match v with PyStr _ => true | _ => false end.

Definition dict_of (fields : list (string * pyval) -> bool) (v : pyval) : bool :=
  match v with PyDict d => fields d | _ => false end.

Definition list_of (item : pyval -> bool) (v : pyval) : bool :=
  match v with PyList l => forallb item l | _ => false end.

Definition opt_str : pyval -> bool := falsy_or is_str.

Definition headers_shape : pyval -> bool :=
  dict_of (fun h => falsy_or (list_of opt_str) (Py.dict_get h "Server")).

Definition geoip_shape : pyval -> bool :=
  dict_of (fun g =>
    opt_str (Py.dict_get g "city_name") && opt_str (Py.dict_get g "region_name") &&
    opt_str (Py.dict_get g "country_name")).

Definition software_shape : pyval -> bool :=
  dict_of (fun w =>
    opt_str (Py.dict_get w "name") && opt_str (Py.dict_get w "version") &&
    opt_str (Py.dict_get w "os")).

Definition service_shape : pyval -> bool :=
  dict_of (fun s =>
    opt_str (Py.dict_get s "port") &&
    falsy_or headers_shape (Py.dict_get s "headers") &&
    falsy_or geoip_shape (Py.dict_get s "geoip") &&
    falsy_or software_shape (Py.dict_get s "software")).

Definition leak_shape : pyval -> bool :=
  dict_of (fun l => opt_str (Py.dict_get l "data")).

Definition well_shaped : pyval -> bool :=
  dict_of (fun d =>
    falsy_or (list_of service_shape) (Py.dict_get d "Services") &&
    falsy_or (list_of leak_shape) (Py.dict_get d "Leaks")).

(** A computation that returns, leaves the machine as it is, and only
    notifies. *)
Definition returns {A} (c : M A) (a : A) : Prop :=
  exists t, (forall m, c m = (Ret a, m, t)) /\ forallb is_notify t = true.

(** A computation that raises, leaves the machine as it is, and only
    notifies before it raises. *)
Definition raises {A} (c : M A) : Prop :=
  exists e t, (forall m, c m = (Raise e, m, t)) /\ forallb is_notify t = true.

Definition is_dict (v : pyval) : bool :=
  match v with PyDict _ => true | _ => false end.

(** The [RAW_RIR_DATA] event for a document. *)
Definition raw_data (ev : event) (doc : pyval) : produced :=
  SpiderFootEvent "RAW_RIR_DATA" (PyStr (Py.str doc)) module_name ev.

(** A computation is a notifier when its outcome and its effects do not
    depend on the machine, it leaves the machine as it is, and its
    effects are all calls of [notifyListeners]. *)
Definition notifier {A} (c : M A) : Prop :=
  exists o t, (forall m, c m = (o, m, t)) /\ forallb is_notify t = true.

(** *** The events a call may notify

    The types of the events drawn from the entries of a document, and what
    it is for an event to be of one of some types, stamped with the name of
    the module and with the event that was handled. *)
Definition entry_types : list string :=
  ["TCP_PORT_OPEN"; "WEBSERVER_BANNER"; "GEOINFO"; "SOFTWARE_USED"; "OPERATING_SYSTEM";
   "LEAKSITE_CONTENT"].

Definition declared (ev : event) (tys : list string) (p : produced) : Prop :=
  In (pType p) tys /\ pModule p = module_name /\ pSource p = ev.

(** A computation that notifies only events that satisfy [P]. *)
Definition only (P : produced -> Prop) {A} (c : M A) : Prop :=
  forall m, Forall P (notified (effects_of (c m))).

(** *** Requests in a session

    The [fetchUrl] calls for one target, told by their URL; and effects in
    which every [fetchUrl] call is followed at once by a sleep of [d], and
    no sleep comes otherwise. *)
Definition is_fetch_of (target : string) (e : effect) : bool :=
  match e with
  | Fetch r => String.eqb (url r) ("https://leakix.net/host/" ++ target)
  | _ => false
  end.

Definition fetches_of (target : string) (t : list effect) : nat :=
  length (List.filter (is_fetch_of target) t).

Fixpoint paced_from (awaited : bool) (d : Z) (t : list effect) : bool :=
  match t with
  | [] => negb awaited
  | e :: t' =>
      if awaited then
        match e with
        | Sleep d' => (d' =? d) && paced_from false d t'
        | _ => false
        end
      else
        match e with
        | Fetch _ => paced_from true d t'
        | Sleep _ => false
        | _ => paced_from false d t'
        end
  end.

Definition paced (d : Z) (t : list effect) : bool := paced_from false d t.

(** *** The events of a document, as a list

    What extraction notifies for a document of the documented shape: the
    raw data; then, service by service, the port, one banner for each
    server that is not empty, the location, the software (name and
    version, those that are not empty, joined by a space) and the operating
    system; then one event for each leak whose data is not empty. *)
Definition fact (ev : event) (ty : string) (v : string) : produced :=
  SpiderFootEvent ty (PyStr v) module_name ev.

Definition nonempty (s : string) : list string :=
  if String.eqb s EmptyString then [] else [s].

Definition entries (v : pyval) : list pyval :=
  match v with PyList l => l | _ => [] end.

Definition fields (v : pyval) : list (string * pyval) :=
  match v with PyDict d => d | _ => [] end.

Definition port_facts (ev : event) (s : list (string * pyval)) : list produced :=
  map (fun p => fact ev "TCP_PORT_OPEN" ((data ev ++ ":") ++ p))
    (nonempty_str (Py.dict_get s "port")).

Definition banner_facts (ev : event) (s : list (string * pyval)) : list produced :=
  map (fact ev "WEBSERVER_BANNER")
    (flat_map nonempty_str (entries (Py.dict_get (fields (Py.dict_get s "headers")) "Server"))).

Definition geoip_facts (ev : event) (s : list (string * pyval)) : list produced :=
  map (fact ev "GEOINFO") (nonempty (geo_location (fields (Py.dict_get s "geoip")))).

Definition software_facts (ev : event) (s : list (string * pyval)) : list produced :=
  let w := fields (Py.dict_get s "software") in
  (map (fact ev "SOFTWARE_USED")
     (nonempty (Py.join " " (nonempty_str (Py.dict_get w "name") ++
                             nonempty_str (Py.dict_get w "version")))) ++
   map (fact ev "OPERATING_SYSTEM") (nonempty_str (Py.dict_get w "os")))%list.

Definition service_facts (ev : event) (service : pyval) : list produced :=
  let s := fields service in
  (port_facts ev s ++ banner_facts ev s ++ geoip_facts ev s ++ software_facts ev s)%list.

Definition leak_facts (ev : event) (leak : pyval) : list produced :=
  map (fact ev "LEAKSITE_CONTENT") (nonempty_str (Py.dict_get (fields leak) "data")).

Definition doc_facts (ev : event) (doc : pyval) : list produced :=
  (raw_data ev doc ::
   flat_map (service_facts ev) (entries (Py.dict_get (fields doc) "Services")) ++
   flat_map (leak_facts ev) (entries (Py.dict_get (fields doc) "Leaks")))%list.

(** A computation that returns [a] with the effects [t], whatever the
    machine, and leaves the machine as it is. *)
Definition yields {A} (c : M A) (a : A) (t : list effect) : Prop :=
  forall m, c m = (Ret a, m, t).

(** * Properties *)

(** ** The model at work *)

Example repr_quotes :
  Py.repr (PyStr "it's") = String Py.dquote ("it's" ++ String Py.dquote EmptyString) /\
  Py.repr (PyStr (String Py.dquote "it's")) =
    String "'" (String Py.dquote ("it\'s" ++ "'")) /\
  Py.repr (PyStr "a\b") = "'a\\b'".
Proof. repeat split. Qed.

Example repr_escapes :
  Py.repr (PyStr (String (ascii_of_N 9) (String (ascii_of_N 1) (String (ascii_of_N 233) "z")))) =
    String "'" ("\t\x01" ++ String (ascii_of_N 233) "z'").
Proof. reflexivity. Qed.

Example str_values :
  Py.str (PyList [PyInt (-20); PyInt 0; PyFloat "1.5"; PyBool true; PyNone; PyDict []]) =
    "[-20, 0, 1.5, True, None, {}]" /\
  Py.str (PyStr "as it is") = "as it is".
Proof. split; reflexivity. Qed.

Example truthy_values :
  map Py.truthy
    [PyNone; PyBool false; PyInt 0; PyFloat "0.0"; PyStr EmptyString; PyList []; PyDict [];
     PyInt 443; PyFloat "nan"; PyStr "0"; PyList [PyNone]; PyDict [("k", PyNone)]] =
    [false; false; false; false; false; false; false; true; true; true; true; true].
Proof. reflexivity. Qed.

(** ** Computations that only notify *)

Lemma notifier_ret {A} (a : A) : notifier (ret a).
Proof. exists (Ret a), []. split; [reflexivity | reflexivity]. Qed.

Lemma notifier_raise {A} (e : exn) : notifier (@raise A e).
Proof. exists (Raise e), []. split; reflexivity. Qed.

Lemma notifier_notify (evt : produced) : notifier (notifyListeners evt).
Proof. exists (Ret tt), [Notify evt]. split; reflexivity. Qed.

Lemma notifier_bind {A B} (c : M A) (k : A -> M B) :
  notifier c -> (forall a, notifier (k a)) -> notifier (bind c k).
Proof.
  intros (o & t & Hc & Ht) Hk.
  destruct o as [a | e].
  - destruct (Hk a) as (o' & t' & Hk' & Ht').
    exists o', (t ++ t')%list. split.
    + intros m. unfold bind. rewrite Hc, Hk'. reflexivity.
    + rewrite forallb_app, Ht, Ht'. reflexivity.
  - exists (Raise e), t. split; [| exact Ht].
    intros m. unfold bind. rewrite Hc. reflexivity.
Qed.

Lemma notifier_for_each {A} (body : A -> M unit) (l : list A) :
  (forall x, notifier (body x)) -> notifier (for_each body l).
Proof.
  intros Hb. induction l as [| x l IH]; simpl.
  - apply notifier_ret.
  - apply notifier_bind; [apply Hb | intros _; exact IH].
Qed.

Lemma notifier_get (v : pyval) (k : string) : notifier (get v k).
Proof. destruct v; simpl; auto using notifier_ret, notifier_raise. Qed.

Lemma notifier_iter (v : pyval) : notifier (iter v).
Proof. destruct v; simpl; auto using notifier_ret, notifier_raise. Qed.

Lemma notifier_add_str (s : string) (v : pyval) : notifier (add_str s v).
Proof. destruct v; simpl; auto using notifier_ret, notifier_raise. Qed.

Lemma notifier_strs (l : list pyval) : notifier (strs l).
Proof.
  induction l as [| v l IH]; simpl.
  - apply notifier_ret.
  - destruct v; try apply notifier_raise.
    apply notifier_bind; [exact IH | intros r; apply notifier_ret].
Qed.

Lemma notifier_join_truthy (sep : string) (l : list pyval) :
  notifier (join_truthy sep l).
Proof.
  unfold join_truthy.
  apply notifier_bind; [apply notifier_strs | intros r; apply notifier_ret].
Qed.

Ltac notifier_step :=
  first
    [ apply notifier_ret
    | apply notifier_raise
    | apply notifier_notify
    | apply notifier_get
    | apply notifier_iter
    | apply notifier_add_str
    | apply notifier_join_truthy
    | apply notifier_bind; [| intros ?]
    | apply notifier_for_each; intros ?
    | match goal with
      | |- notifier (if ?b then _ else _) => destruct b
      end ].

Lemma notifier_service_body (ev : event) (service : pyval) :
  notifier (service_body ev service).
Proof.
  unfold service_body, service_port, service_headers, service_geoip,
    service_software.
  repeat notifier_step.
Qed.

Lemma notifier_leak_body (ev : event) (leak : pyval) :
  notifier (leak_body ev leak).
Proof. unfold leak_body. repeat notifier_step. Qed.

Lemma notifier_extract_services (ev : event) (doc : pyval) :
  notifier (extract_services ev doc).
Proof.
  unfold extract_services. repeat notifier_step.
Qed.

Lemma notifier_extract_leaks (ev : event) (doc : pyval) :
  notifier (extract_leaks ev doc).
Proof.
  unfold extract_leaks. repeat notifier_step.
Qed.

Lemma notifier_extract (ev : event) (doc : pyval) : notifier (extract ev doc).
Proof.
  unfold extract. repeat notifier_step.
Qed.

(** ** The two guards of [handleEvent] *)

Lemma handleEvent_errored (ev : event) (m : machine) :
  errorState (self m) = true -> handleEvent ev m = (Ret tt, m, []).
Proof.
  intros H. unfold handleEvent, bind, get_self. rewrite H. reflexivity.
Qed.

Lemma handleEvent_seen (ev : event) (m : machine) :
  is_Some (results (self m) !! data ev) -> handleEvent ev m = (Ret tt, m, []).
Proof.
  intros [b Hb]. unfold handleEvent, bind, get_self. rewrite Hb.
  destruct (errorState (self m)); reflexivity.
Qed.

Lemma session_errored (evs : list event) (m : machine) :
  errorState (self m) = true -> session evs m = (Ret tt, m, []).
Proof.
  intros H. unfold session.
  induction evs as [| ev evs IH]; simpl; [reflexivity |].
  assert (Ha : attempt (handleEvent ev) m = (Ret tt, m, [])).
  { unfold attempt. rewrite (handleEvent_errored ev m H). reflexivity. }
  unfold bind. rewrite Ha, IH. reflexivity.
Qed.

(** ** [parseAPIResponse] and [queryHost], case by case *)

Lemma parseAPIResponse_run (res : response) (m : machine) :
  parseAPIResponse res m =
    if code_is res "404" then (Ret PyNone, m, [Debug "Host not found"])
    else if code_is res "429" then
      (Ret PyNone, with_errorState m,
       [Error "You are being rate-limited by LeakIX"; SetErrorState])
    else if negb (code_is res "200") then
      (Ret PyNone, with_errorState m,
       [Error "Failed to retrieve content from LeakIX"; SetErrorState])
    else
      match content res with
      | None => (Ret PyNone, m, [])
      | Some body =>
          match json_loads body with
          | inr e => (Ret PyNone, m, [Debug ("Error processing JSON response: " ++ e)])
          | inl doc => (Ret doc, m, [])
          end
      end.
Proof.
  unfold parseAPIResponse.
  destruct (code_is res "404"); [reflexivity |].
  destruct (code_is res "429"); [reflexivity |].
  destruct (code_is res "200"); simpl; [| reflexivity].
  destruct (content res) as [body |]; [| reflexivity].
  destruct (json_loads body); reflexivity.
Qed.

Lemma queryHost_run (qry : string) (m : machine) :
  queryHost qry m =
    let o := self_opts (self m) in
    let r := host_request o qry in
    let m1 := with_world (snd (fetchUrl (world m) r)) m in
    if delay o <? 0 then (Raise ValueError, m1, [Fetch r; Sleep (delay o)])
    else
      let '(v, m2, t) := parseAPIResponse (fst (fetchUrl (world m) r)) m1 in
      (v, m2, Fetch r :: Sleep (delay o) :: t).
Proof.
  unfold queryHost, bind, get_self, fetch, sleep. simpl.
  destruct (fetchUrl (world m) (host_request (self_opts (self m)) qry)) as [res w].
  simpl. destruct (delay (self_opts (self m)) <? 0); [reflexivity |].
  destruct (parseAPIResponse res (with_world w m)) as [[v m2] t]. reflexivity.
Qed.

(** ** [handleEvent] past its guards *)

Lemma handleEvent_fresh (ev : event) (m : machine) :
  errorState (self m) = false ->
  results (self m) !! data ev = None ->
  handleEvent ev m =
    let pre := preamble ev (self_opts (self m)) in
    if existsb (String.eqb (eventType ev)) ["IP_ADDRESS"] then
      let '(v, m1, t) := queryHost (data ev) (with_result (data ev) m) in
      match v with
      | Raise e => (Raise e, m1, (pre ++ t)%list)
      | Ret doc =>
          if is_none doc then
            (Ret tt, m1,
             (pre ++ t ++ [Debug ("No information found for host " ++ data ev)])%list)
          else
            let '(o, m2, t') := extract ev doc m1 in (o, m2, (pre ++ t ++ t')%list)
      end
    else (Ret tt, with_result (data ev) m, pre).
Proof.
  intros He Hr. unfold handleEvent, bind, get_self, preamble. rewrite He, Hr.
  unfold set_result, debug, emit, ret.
  destruct (String.eqb (api_key (self_opts (self m))) EmptyString);
    destruct (existsb (String.eqb (eventType ev)) ["IP_ADDRESS"]);
    try reflexivity;
    destruct (queryHost (data ev) (with_result (data ev) m)) as [[v m1] t];
    destruct v as [doc | e]; try reflexivity;
    destruct (is_none doc); try reflexivity;
    destruct (extract ev doc m1) as [[o m2] t']; reflexivity.
Qed.

(** ** What a session keeps *)

Lemma grows_refl (m : machine) : grows m m.
Proof. unfold grows. auto. Qed.

Lemma grows_trans (m1 m2 m3 : machine) : grows m1 m2 -> grows m2 m3 -> grows m1 m3.
Proof.
  intros (Ho & Hr & He) (Ho' & Hr' & He'). unfold grows.
  split; [congruence | split; auto].
Qed.

Lemma grows_with_world (w : World) (m : machine) : grows m (with_world w m).
Proof. unfold grows. simpl. auto. Qed.

Lemma grows_with_errorState (m : machine) : grows m (with_errorState m).
Proof. unfold grows. simpl. auto. Qed.

Lemma grows_with_result (key : string) (m : machine) : grows m (with_result key m).
Proof.
  unfold grows. simpl. split; [reflexivity | split; [| auto]].
  intros k Hk. destruct (decide (key = k)) as [-> | Hne].
  - rewrite lookup_insert_eq. eauto.
  - rewrite lookup_insert_ne by assumption. exact Hk.
Qed.

Lemma parseAPIResponse_grows (res : response) (m : machine) :
  grows m (machine_of (parseAPIResponse res m)).
Proof.
  rewrite parseAPIResponse_run.
  destruct (code_is res "404"); [apply grows_refl |].
  destruct (code_is res "429"); [apply grows_with_errorState |].
  destruct (code_is res "200"); simpl; [| apply grows_with_errorState].
  destruct (content res) as [body |]; [| apply grows_refl].
  destruct (json_loads body); apply grows_refl.
Qed.

Lemma queryHost_grows (qry : string) (m : machine) :
  grows m (machine_of (queryHost qry m)).
Proof.
  rewrite queryHost_run. cbv zeta.
  set (r := host_request (self_opts (self m)) qry).
  destruct (delay (self_opts (self m)) <? 0); [apply grows_with_world |].
  pose proof (parseAPIResponse_grows (fst (fetchUrl (world m) r))
                (with_world (snd (fetchUrl (world m) r)) m)) as Hg.
  destruct (parseAPIResponse _ _) as [[v m2] t]. unfold machine_of in *. simpl in *.
  eapply grows_trans; [apply grows_with_world | exact Hg].
Qed.

Lemma extract_machine (ev : event) (doc : pyval) (m : machine) :
  machine_of (extract ev doc m) = m.
Proof.
  destruct (notifier_extract ev doc) as (o & t & H & _). rewrite H. reflexivity.
Qed.

(** Past the guards, the machine a call leaves comes after the one with the
    target recorded. *)
Lemma handleEvent_fresh_grows (ev : event) (m : machine) :
  errorState (self m) = false ->
  results (self m) !! data ev = None ->
  grows (with_result (data ev) m) (machine_of (handleEvent ev m)).
Proof.
  intros He Hr. rewrite (handleEvent_fresh ev m He Hr). cbv zeta.
  destruct (existsb _ _); [| apply grows_refl].
  pose proof (queryHost_grows (data ev) (with_result (data ev) m)) as Hq.
  destruct (queryHost _ _) as [[v m1] t]. unfold machine_of in Hq. simpl in Hq.
  destruct v as [doc | e]; [| exact Hq].
  destruct (is_none doc); [exact Hq |].
  pose proof (extract_machine ev doc m1) as Hx.
  destruct (extract ev doc m1) as [[o m2] t']. unfold machine_of in *. simpl in *.
  subst m2. exact Hq.
Qed.

Lemma handleEvent_grows (ev : event) (m : machine) :
  grows m (machine_of (handleEvent ev m)).
Proof.
  destruct (errorState (self m)) eqn:He.
  - rewrite handleEvent_errored by assumption. apply grows_refl.
  - destruct (results (self m) !! data ev) as [b |] eqn:Hr.
    + rewrite handleEvent_seen by (rewrite Hr; eauto). apply grows_refl.
    + eapply grows_trans; [apply grows_with_result |].
      apply handleEvent_fresh_grows; assumption.
Qed.

Lemma session_grows (evs : list event) (m : machine) :
  grows m (machine_of (session evs m)).
Proof.
  unfold session. revert m.
  induction evs as [| ev evs IH]; intros m; simpl; [apply grows_refl |].
  unfold bind. unfold attempt at 1.
  pose proof (handleEvent_grows ev m) as Hh.
  destruct (handleEvent ev m) as [[o m1] t]. unfold machine_of in Hh. simpl in Hh.
  specialize (IH m1).
  destruct (for_each _ evs m1) as [[o' m2] t']. unfold machine_of in *. simpl in *.
  eapply grows_trans; eassumption.
Qed.

(** A call that finds the error state clear leaves the target recorded. *)
Lemma handleEvent_records (ev : event) (m : machine) :
  errorState (self m) = false ->
  is_Some (results (self (machine_of (handleEvent ev m))) !! data ev).
Proof.
  intros He. destruct (results (self m) !! data ev) as [b |] eqn:Hr.
  - rewrite handleEvent_seen by (rewrite Hr; eauto). unfold machine_of. simpl.
    rewrite Hr. eauto.
  - destruct (handleEvent_fresh_grows ev m He Hr) as (_ & Hk & _).
    apply Hk. simpl. rewrite lookup_insert_eq. eauto.
Qed.

(** ** Counting the effects *)

Lemma fetches_app (t1 t2 : list effect) :
  fetches (t1 ++ t2) = (fetches t1 + fetches t2)%nat.
Proof. unfold fetches. rewrite List.filter_app, length_app. reflexivity. Qed.

Lemma notified_app (t1 t2 : list effect) :
  notified (t1 ++ t2) = (notified t1 ++ notified t2)%list.
Proof.
  induction t1 as [| e t1 IH]; simpl; [reflexivity |].
  destruct e; simpl; rewrite IH; reflexivity.
Qed.

Lemma offline_app (t1 t2 : list effect) :
  offline (t1 ++ t2) = offline t1 && offline t2.
Proof. unfold offline. apply forallb_app. Qed.

Lemma offline_fetches (t : list effect) : offline t = true -> fetches t = 0%nat.
Proof.
  unfold offline, fetches. induction t as [| e t IH]; simpl; [reflexivity |].
  intros H. apply andb_prop in H as [He Ht].
  destruct e; simpl in *; try discriminate; auto.
Qed.

Lemma notify_offline (t : list effect) : forallb is_notify t = true -> offline t = true.
Proof.
  unfold offline. induction t as [| e t IH]; simpl; [reflexivity |].
  intros H. apply andb_prop in H as [He Ht].
  destruct e; simpl in *; try discriminate; auto.
Qed.

Lemma preamble_offline (ev : event) (o : options) : offline (preamble ev o) = true.
Proof.
  unfold preamble. destruct (String.eqb (api_key o) EmptyString); reflexivity.
Qed.

Lemma preamble_notified (ev : event) (o : options) : notified (preamble ev o) = [].
Proof.
  unfold preamble. destruct (String.eqb (api_key o) EmptyString); reflexivity.
Qed.

Lemma parseAPIResponse_offline (res : response) (m : machine) :
  offline (effects_of (parseAPIResponse res m)) = true /\
  notified (effects_of (parseAPIResponse res m)) = [].
Proof.
  rewrite parseAPIResponse_run.
  destruct (code_is res "404"); [split; reflexivity |].
  destruct (code_is res "429"); [split; reflexivity |].
  destruct (code_is res "200"); simpl; [| split; reflexivity].
  destruct (content res) as [body |]; [| split; reflexivity].
  destruct (json_loads body); split; reflexivity.
Qed.

(** [queryHost] calls [fetchUrl] once, sleeps, and then neither again. *)
Lemma queryHost_effects (qry : string) (m : machine) :
  exists rest,
    effects_of (queryHost qry m) =
      Fetch (host_request (self_opts (self m)) qry)
      :: Sleep (delay (self_opts (self m))) :: rest /\
    offline rest = true /\ notified rest = [].
Proof.
  rewrite queryHost_run. cbv zeta.
  set (r := host_request (self_opts (self m)) qry).
  destruct (delay (self_opts (self m)) <? 0).
  - exists []. repeat split.
  - pose proof (parseAPIResponse_offline (fst (fetchUrl (world m) r))
                  (with_world (snd (fetchUrl (world m) r)) m)) as [Ho Hn].
    destruct (parseAPIResponse _ _) as [[v m2] t]. exists t.
    unfold effects_of in *. simpl in *. auto.
Qed.

Lemma extract_effects (ev : event) (doc : pyval) (m : machine) :
  offline (effects_of (extract ev doc m)) = true.
Proof.
  destruct (notifier_extract ev doc) as (o & t & H & Ht). rewrite H.
  apply notify_offline. exact Ht.
Qed.

(** Past the guards, on an [IP_ADDRESS] event: the preamble, one call of
    [fetchUrl], the sleep, and neither again. *)
Lemma handleEvent_fresh_effects (ev : event) (m : machine) :
  errorState (self m) = false ->
  results (self m) !! data ev = None ->
  eventType ev = "IP_ADDRESS" ->
  exists rest,
    effects_of (handleEvent ev m) =
      (preamble ev (self_opts (self m)) ++
       Fetch (host_request (self_opts (self m)) (data ev))
       :: Sleep (delay (self_opts (self m))) :: rest)%list /\
    offline rest = true.
Proof.
  intros He Hr Hty. rewrite (handleEvent_fresh ev m He Hr). rewrite Hty. cbv zeta.
  simpl existsb. cbv iota.
  destruct (queryHost_effects (data ev) (with_result (data ev) m))
    as (rest & Hq & Ho & _).
  destruct (queryHost _ _) as [[v m1] t]. unfold effects_of in *. simpl in Hq.
  subst t. destruct v as [doc | e].
  - destruct (is_none doc).
    + eexists. split; [reflexivity |]. rewrite offline_app, Ho. reflexivity.
    + pose proof (extract_effects ev doc m1) as Hx.
      destruct (extract ev doc m1) as [[o m2] t']. unfold effects_of in Hx.
      simpl in *. eexists. split; [reflexivity |].
      rewrite offline_app, Ho, Hx. reflexivity.
  - eexists. split; [reflexivity | exact Ho].
Qed.

(** The effects of a call are none, or start with the recording of the
    target. *)
Lemma handleEvent_effects_head (ev : event) (m : machine) :
  effects_of (handleEvent ev m) = [] \/
  exists rest, effects_of (handleEvent ev m) = SetResult (data ev) :: rest.
Proof.
  destruct (errorState (self m)) eqn:He.
  - left. rewrite handleEvent_errored by assumption. reflexivity.
  - destruct (results (self m) !! data ev) as [b |] eqn:Hr.
    + left. rewrite handleEvent_seen by (rewrite Hr; eauto). reflexivity.
    + right. rewrite (handleEvent_fresh ev m He Hr). cbv zeta. unfold preamble.
      destruct (existsb _ _); [| eexists; reflexivity].
      destruct (queryHost _ _) as [[v m1] t].
      destruct v as [doc | e]; [| eexists; reflexivity].
      destruct (is_none doc); [eexists; reflexivity |].
      destruct (extract ev doc m1) as [[o m2] t']. eexists. reflexivity.
Qed.

Lemma handleEvent_fetches (ev : event) (m : machine) :
  (fetches (effects_of (handleEvent ev m)) <= 1)%nat.
Proof.
  destruct (errorState (self m)) eqn:He.
  { rewrite handleEvent_errored by assumption. cbv. lia. }
  destruct (results (self m) !! data ev) as [b |] eqn:Hr.
  { rewrite handleEvent_seen by (rewrite Hr; eauto). cbv. lia. }
  destruct (existsb (String.eqb (eventType ev)) ["IP_ADDRESS"]) eqn:Hty.
  - assert (eventType ev = "IP_ADDRESS") as Heq.
    { simpl in Hty. rewrite orb_false_r in Hty. apply String.eqb_eq in Hty. exact Hty. }
    destruct (handleEvent_fresh_effects ev m He Hr Heq) as (rest & -> & Ho).
    rewrite fetches_app, (offline_fetches _ (preamble_offline _ _)).
    unfold fetches. simpl. fold (fetches rest).
    rewrite (offline_fetches _ Ho). lia.
  - rewrite (handleEvent_fresh ev m He Hr). cbv zeta. rewrite Hty.
    unfold effects_of. simpl.
    rewrite (offline_fetches _ (preamble_offline _ _)). lia.
Qed.

Lemma parseAPIResponse_returns (res : response) (m : machine) :
  exists v, outcome_of (parseAPIResponse res m) = Ret v.
Proof.
  rewrite parseAPIResponse_run.
  destruct (code_is res "404"); [eexists; reflexivity |].
  destruct (code_is res "429"); [eexists; reflexivity |].
  destruct (code_is res "200"); simpl; [| eexists; reflexivity].
  destruct (content res) as [body |]; [| eexists; reflexivity].
  destruct (json_loads body); eexists; reflexivity.
Qed.

(** Past the guards, on an [IP_ADDRESS] event and with a delay that is not
    negative: the whole call, in terms of the response and of what
    [parseAPIResponse] makes of it. *)
Lemma handleEvent_fresh_run (ev : event) (m : machine) :
  errorState (self m) = false ->
  results (self m) !! data ev = None ->
  eventType ev = "IP_ADDRESS" ->
  0 <= delay (self_opts (self m)) ->
  handleEvent ev m =
    let o := self_opts (self m) in
    let r := host_request o (data ev) in
    let pre := (preamble ev o ++ [Fetch r; Sleep (delay o)])%list in
    let '(v, m1, t) :=
      parseAPIResponse (fst (fetchUrl (world m) r))
        (with_world (snd (fetchUrl (world m) r)) (with_result (data ev) m)) in
    match v with
    | Raise e => (Raise e, m1, (pre ++ t)%list)
    | Ret doc =>
        if is_none doc then
          (Ret tt, m1,
           (pre ++ t ++ [Debug ("No information found for host " ++ data ev)])%list)
        else
          let '(o', m2, t') := extract ev doc m1 in (o', m2, (pre ++ t ++ t')%list)
    end.
Proof.
  intros He Hr Hty Hd. rewrite (handleEvent_fresh ev m He Hr). rewrite Hty.
  cbv zeta. simpl existsb. cbv iota. rewrite queryHost_run. cbv zeta.
  cbn [self self_opts world with_result with_world].
  replace (delay (self_opts (self m)) <? 0) with false by (symmetry; apply Z.ltb_ge; exact Hd).
  destruct (parseAPIResponse _ _) as [[v m1] t].
  destruct v as [doc | e].
  - destruct (is_none doc).
    + rewrite <- !app_assoc. reflexivity.
    + destruct (extract ev doc m1) as [[o' m2] t']. rewrite <- !app_assoc. reflexivity.
  - rewrite <- !app_assoc. reflexivity.
Qed.

(** ** Requests: the error state, the recorded targets, the pacing *)

(** C2.  A response that is neither a 404 nor a 200 leaves the error state
    set, in [parseAPIResponse] and so in the [handleEvent] call that
    received it.  From a machine whose error state is set, every later
    sequence of [handleEvent] calls, whatever the targets, has no effect at
    all (no [fetchUrl] call, no event notified) and leaves the machine as it
    is: the error state stays set, and the call after the sequence is again
    without effect. *)
Theorem errored_is_absorbing (m : machine) (evs : list event) (ev : event) :
  (forall res,
      code_is res "404" = false -> code_is res "200" = false ->
      errorState (self (machine_of (parseAPIResponse res m))) = true) /\
  (errorState (self m) = false ->
   results (self m) !! data ev = None ->
   eventType ev = "IP_ADDRESS" ->
   0 <= delay (self_opts (self m)) ->
   let res := fst (fetchUrl (world m) (host_request (self_opts (self m)) (data ev))) in
   code_is res "404" = false -> code_is res "200" = false ->
   let m1 := machine_of (handleEvent ev m) in
   errorState (self m1) = true /\ session evs m1 = (Ret tt, m1, [])) /\
  (errorState (self m) = true ->
   session evs m = (Ret tt, m, []) /\
   handleEvent ev (machine_of (session evs m)) = (Ret tt, m, [])).
Proof.
  split; [| split].
  - intros res H404 H200. rewrite parseAPIResponse_run, H404, H200.
    destruct (code_is res "429"); reflexivity.
  - intros He Hr Hty Hd res H404 H200 m1.
    assert (Hm1 : errorState (self m1) = true).
    { unfold m1. rewrite (handleEvent_fresh_run ev m He Hr Hty Hd). cbv zeta.
      fold res. rewrite parseAPIResponse_run, H404, H200.
      destruct (code_is res "429"); reflexivity. }
    split; [exact Hm1 | apply session_errored; exact Hm1].
  - intros He. rewrite (session_errored evs m He). split; [reflexivity |].
    apply handleEvent_errored. exact He.
Qed.

Lemma handleEvent_fresh_head (ev : event) (m : machine) :
  errorState (self m) = false ->
  results (self m) !! data ev = None ->
  exists rest, effects_of (handleEvent ev m) = SetResult (data ev) :: rest.
Proof.
  intros He Hr. rewrite (handleEvent_fresh ev m He Hr). cbv zeta. unfold preamble.
  destruct (existsb _ _); [| eexists; reflexivity].
  destruct (queryHost _ _) as [[v m1] t].
  destruct v as [doc | e]; [| eexists; reflexivity].
  destruct (is_none doc); [eexists; reflexivity |].
  destruct (extract ev doc m1) as [[o m2] t']. eexists. reflexivity.
Qed.

(** C3.  Two [handleEvent] calls for the same target, with any calls in
    between.  The first calls [fetchUrl] at most once, and only after it
    has recorded the target in [results]: when it finds the error state
    clear it leaves the target recorded, whatever its outcome, and when the
    target is new the recording is the first thing it does.  The target is
    still recorded when the second call comes, and the second call has no
    effect at all (no [fetchUrl] call, no event notified) and leaves the
    machine as it is. *)
Theorem handled_once (ev1 ev2 : event) (mid : list event) (m : machine) :
  data ev1 = data ev2 ->
  let r1 := handleEvent ev1 m in
  let m2 := machine_of (session mid (machine_of r1)) in
  (fetches (effects_of r1) <= 1)%nat /\
  (forall pre r post,
      effects_of r1 = (pre ++ Fetch r :: post)%list ->
      In (SetResult (data ev1)) pre) /\
  (errorState (self m) = false ->
   is_Some (results (self (machine_of r1)) !! data ev1) /\
   is_Some (results (self m2) !! data ev2)) /\
  (errorState (self m) = false ->
   results (self m) !! data ev1 = None ->
   exists rest, effects_of r1 = SetResult (data ev1) :: rest) /\
  handleEvent ev2 m2 = (Ret tt, m2, []).
Proof.
  intros Hd r1 m2.
  destruct (session_grows mid (machine_of r1)) as (_ & Hres & Herr).
  fold m2 in Hres, Herr.
  split; [apply handleEvent_fetches | split; [| split; [| split]]].
  - intros pre r post Heq.
    destruct (handleEvent_effects_head ev1 m) as [Hnil | (rest & Hhd)];
      fold r1 in Hnil || fold r1 in Hhd.
    + rewrite Hnil in Heq. destruct pre; discriminate.
    + rewrite Hhd in Heq. destruct pre as [| e pre]; [discriminate |].
      injection Heq as <- _. left. reflexivity.
  - intros He. pose proof (handleEvent_records ev1 m He) as Hrec. fold r1 in Hrec.
    split; [exact Hrec |]. rewrite <- Hd. apply Hres. exact Hrec.
  - intros He Hr. apply handleEvent_fresh_head; assumption.
  - destruct (errorState (self m)) eqn:He.
    + apply handleEvent_errored. apply Herr.
      destruct (handleEvent_grows ev1 m) as (_ & _ & Herr1). apply Herr1. exact He.
    + apply handleEvent_seen. rewrite <- Hd. apply Hres.
      apply handleEvent_records. exact He.
Qed.

(** C5.  A 429 response: [parseAPIResponse] returns [None] and sets the
    error state, and every later sequence of [handleEvent] calls has no
    effect.  In the [handleEvent] call that received it, no event is
    notified. *)
Theorem rate_limited (res : response) (m : machine) (evs : list event) :
  code res = Some "429" ->
  parseAPIResponse res m =
    (Ret PyNone, with_errorState m,
     [Error "You are being rate-limited by LeakIX"; SetErrorState]) /\
  errorState (self (with_errorState m)) = true /\
  session evs (with_errorState m) = (Ret tt, with_errorState m, []) /\
  (forall ev,
      errorState (self m) = false ->
      results (self m) !! data ev = None ->
      eventType ev = "IP_ADDRESS" ->
      0 <= delay (self_opts (self m)) ->
      fst (fetchUrl (world m) (host_request (self_opts (self m)) (data ev))) = res ->
      let r := handleEvent ev m in
      outcome_of r = Ret tt /\
      notified (effects_of r) = [] /\
      errorState (self (machine_of r)) = true /\
      session evs (machine_of r) = (Ret tt, machine_of r, [])).
Proof.
  intros Hc.
  assert (H404 : code_is res "404" = false) by (unfold code_is; rewrite Hc; reflexivity).
  assert (H429 : code_is res "429" = true) by (unfold code_is; rewrite Hc; reflexivity).
  split; [rewrite parseAPIResponse_run, H404, H429; reflexivity |].
  split; [reflexivity |].
  split; [apply session_errored; reflexivity |].
  intros ev He Hr Hty Hd Hres r. subst r.
  rewrite (handleEvent_fresh_run ev m He Hr Hty Hd). cbv zeta.
  rewrite Hres, parseAPIResponse_run, H404, H429. cbn [is_none].
  unfold outcome_of, effects_of, machine_of. cbn [fst snd].
  split; [reflexivity |]. split.
  - rewrite !notified_app, preamble_notified. reflexivity.
  - split; [reflexivity | apply session_errored; reflexivity].
Qed.

(** C6.  A 404 response: [parseAPIResponse] returns [None] and leaves the
    machine, and so the error state, as it is.  In the [handleEvent] call
    that received it, no event is notified and the error state is still
    clear. *)
Theorem not_found (res : response) (m : machine) :
  code res = Some "404" ->
  parseAPIResponse res m = (Ret PyNone, m, [Debug "Host not found"]) /\
  (forall ev,
      errorState (self m) = false ->
      results (self m) !! data ev = None ->
      eventType ev = "IP_ADDRESS" ->
      0 <= delay (self_opts (self m)) ->
      fst (fetchUrl (world m) (host_request (self_opts (self m)) (data ev))) = res ->
      let r := handleEvent ev m in
      outcome_of r = Ret tt /\
      notified (effects_of r) = [] /\
      errorState (self (machine_of r)) = false).
Proof.
  intros Hc.
  assert (H404 : code_is res "404" = true) by (unfold code_is; rewrite Hc; reflexivity).
  split; [rewrite parseAPIResponse_run, H404; reflexivity |].
  intros ev He Hr Hty Hd Hres r. subst r.
  rewrite (handleEvent_fresh_run ev m He Hr Hty Hd). cbv zeta.
  rewrite Hres, parseAPIResponse_run, H404. cbn [is_none].
  unfold outcome_of, effects_of, machine_of. cbn [fst snd].
  split; [reflexivity |]. split.
  - rewrite !notified_app, preamble_notified. reflexivity.
  - exact He.
Qed.

(** C7.  A 200 response whose body [json.loads] rejects:
    [parseAPIResponse] returns [None] and leaves the machine, and so the
    error state, as it is.  In the [handleEvent] call that received it, no
    event is notified and the error state is still clear. *)
Theorem undecodable_body (res : response) (body msg : string) (m : machine) :
  code res = Some "200" ->
  content res = Some body ->
  json_loads body = inr msg ->
  parseAPIResponse res m =
    (Ret PyNone, m, [Debug ("Error processing JSON response: " ++ msg)]) /\
  (forall ev,
      errorState (self m) = false ->
      results (self m) !! data ev = None ->
      eventType ev = "IP_ADDRESS" ->
      0 <= delay (self_opts (self m)) ->
      fst (fetchUrl (world m) (host_request (self_opts (self m)) (data ev))) = res ->
      let r := handleEvent ev m in
      outcome_of r = Ret tt /\
      notified (effects_of r) = [] /\
      errorState (self (machine_of r)) = false).
Proof.
  intros Hc Hb Hj.
  assert (H404 : code_is res "404" = false) by (unfold code_is; rewrite Hc; reflexivity).
  assert (H429 : code_is res "429" = false) by (unfold code_is; rewrite Hc; reflexivity).
  assert (H200 : code_is res "200" = true) by (unfold code_is; rewrite Hc; reflexivity).
  split; [rewrite parseAPIResponse_run, H404, H429, H200, Hb, Hj; reflexivity |].
  intros ev He Hr Hty Hd Hres r. subst r.
  rewrite (handleEvent_fresh_run ev m He Hr Hty Hd). cbv zeta.
  rewrite Hres, parseAPIResponse_run, H404, H429, H200, Hb, Hj. cbn [negb is_none].
  unfold outcome_of, effects_of, machine_of. cbn [fst snd].
  split; [reflexivity |]. split.
  - rewrite !notified_app, preamble_notified. reflexivity.
  - exact He.
Qed.

(** C9.  With a delay that is not negative, [queryHost] returns after
    exactly one [fetchUrl] call followed at once by the sleep of the
    configured delay, whatever the response; and a [handleEvent] call that
    finds the error state clear, for a target not yet recorded, has
    exactly that one [fetchUrl] call and that sleep among its effects. *)
Theorem one_call_then_sleep (ev : event) (m : machine) :
  0 <= delay (self_opts (self m)) ->
  let o := self_opts (self m) in
  (exists v m' rest,
      queryHost (data ev) m =
        (Ret v, m', Fetch (host_request o (data ev)) :: Sleep (delay o) :: rest) /\
      offline rest = true) /\
  (errorState (self m) = false ->
   results (self m) !! data ev = None ->
   eventType ev = "IP_ADDRESS" ->
   exists rest,
     effects_of (handleEvent ev m) =
       (preamble ev o ++ Fetch (host_request o (data ev)) :: Sleep (delay o) :: rest)%list /\
     offline rest = true /\
     fetches (effects_of (handleEvent ev m)) = 1%nat).
Proof.
  intros Hd o. split.
  - rewrite queryHost_run. cbv zeta. fold o.
    replace (delay o <? 0) with false by (symmetry; apply Z.ltb_ge; exact Hd).
    set (r := host_request o (data ev)).
    pose proof (parseAPIResponse_returns (fst (fetchUrl (world m) r))
                  (with_world (snd (fetchUrl (world m) r)) m)) as [v Hv].
    pose proof (parseAPIResponse_offline (fst (fetchUrl (world m) r))
                  (with_world (snd (fetchUrl (world m) r)) m)) as [Ho _].
    destruct (parseAPIResponse _ _) as [[v' m2] t].
    unfold outcome_of, effects_of in *. simpl in Hv, Ho. subst v'.
    exists v, m2, t. split; [reflexivity | exact Ho].
  - intros He Hr Hty.
    destruct (handleEvent_fresh_effects ev m He Hr Hty) as (rest & Heq & Ho).
    exists rest. fold o in Heq. split; [exact Heq | split; [exact Ho |]].
    rewrite Heq, fetches_app, (offline_fetches _ (preamble_offline _ _)).
    unfold fetches. simpl. fold (fetches rest).
    rewrite (offline_fetches _ Ho). reflexivity.
Qed.

(** ** The facts of one service *)

Lemma bind_ret_l {A B} (a : A) (k : A -> M B) (m : machine) :
  bind (ret a) k m = k a m.
Proof. unfold bind, ret. destruct (k a m) as [[o m2] t]. reflexivity. Qed.

Lemma strs_filter_truthy (l : list pyval) (m : machine) :
  forallb opt_str l = true ->
  strs (List.filter Py.truthy l) m = (Ret (flat_map nonempty_str l), m, []).
Proof.
  induction l as [| v l IH]; simpl; intros H; [reflexivity |].
  apply andb_prop in H as [Hv Hl].
  unfold opt_str, falsy_or in Hv. destruct (Py.truthy v) eqn:Ht; simpl in Hv.
  - destruct v; try discriminate Hv. simpl in Ht |- *.
    destruct (String.eqb s EmptyString); [discriminate Ht |].
    unfold bind. rewrite (IH Hl). reflexivity.
  - rewrite (IH Hl). destruct v; try reflexivity.
    simpl in Ht |- *. destruct (String.eqb s EmptyString); [reflexivity | discriminate Ht].
Qed.

Lemma strs_filter_raises (l : list pyval) (m : machine) :
  forallb opt_str l = false ->
  strs (List.filter Py.truthy l) m = (Raise TypeError, m, []).
Proof.
  induction l as [| v l IH]; simpl; intros H; [discriminate H |].
  unfold opt_str at 1, falsy_or in H. destruct (Py.truthy v) eqn:Ht; simpl in H.
  - destruct (is_str v) eqn:Hs; simpl in H.
    + destruct v; try discriminate Hs. simpl. unfold bind. rewrite (IH H). reflexivity.
    + destruct v; try discriminate Hs; reflexivity.
  - exact (IH H).
Qed.

(** C8 (amended).  For a service whose [geoip] is an object: when each of
    [city_name], [region_name], [country_name] is absent, falsy or a str,
    the [geoip] step notifies one [GEOINFO] event whose data is the join,
    by a comma and a space, of those of the three that are present and not
    empty, in that order, and it notifies nothing when that join is empty;
    when one of the three is truthy and not a str, the step raises
    [TypeError] at the join and notifies nothing. *)
Theorem geoinfo_location (ev : event) (s g : list (string * pyval)) (m : machine) :
  Py.dict_get s "geoip" = PyDict g ->
  (opt_str (Py.dict_get g "city_name") = true ->
   opt_str (Py.dict_get g "region_name") = true ->
   opt_str (Py.dict_get g "country_name") = true ->
   service_geoip ev (PyDict s) m =
     (Ret tt, m,
      if String.eqb (geo_location g) EmptyString then []
      else [Notify (SpiderFootEvent "GEOINFO" (PyStr (geo_location g)) module_name ev)])) /\
  (opt_str (Py.dict_get g "city_name") && opt_str (Py.dict_get g "region_name") &&
   opt_str (Py.dict_get g "country_name") = false ->
   service_geoip ev (PyDict s) m = (Raise TypeError, m, [])).
Proof.
  intros Hg. split.
  - intros Hc Hr Hn. unfold service_geoip. cbn [get]. rewrite bind_ret_l, Hg.
    destruct g as [| kv g]; [reflexivity |].
    cbn [Py.truthy get]. rewrite !bind_ret_l.
    unfold geo_location, present_nonempty, join_truthy, bind.
    rewrite strs_filter_truthy by (cbn [forallb]; rewrite Hc, Hr, Hn; reflexivity).
    cbn [flat_map ret]. rewrite app_nil_r.
    destruct (String.eqb _ EmptyString); reflexivity.
  - intros H. unfold service_geoip. cbn [get]. rewrite bind_ret_l, Hg.
    destruct g as [| kv g]; [discriminate H |].
    cbn [Py.truthy get]. rewrite !bind_ret_l.
    unfold join_truthy, bind.
    rewrite strs_filter_raises; [reflexivity |].
    cbn [forallb]. rewrite andb_true_r, andb_assoc. exact H.
Qed.

(** ** Documents of the documented shape *)

Lemma returns_ret {A} (a : A) : returns (ret a) a.
Proof. exists []. split; reflexivity. Qed.

Lemma returns_notify (evt : produced) : returns (notifyListeners evt) tt.
Proof. exists [Notify evt]. split; reflexivity. Qed.

Lemma returns_bind {A B} (c : M A) (k : A -> M B) (a : A) (b : B) :
  returns c a -> returns (k a) b -> returns (bind c k) b.
Proof.
  intros (t & Hc & Ht) (t' & Hk & Ht'). exists (t ++ t')%list. split.
  - intros m. unfold bind. rewrite Hc, Hk. reflexivity.
  - rewrite forallb_app, Ht, Ht'. reflexivity.
Qed.

Lemma returns_for_each {A} (body : A -> M unit) (l : list A) :
  (forall x, In x l -> returns (body x) tt) -> returns (for_each body l) tt.
Proof.
  induction l as [| x l IH]; intros H; simpl.
  - apply returns_ret.
  - eapply returns_bind; [apply H; left; reflexivity |].
    apply IH. intros y Hy. apply H. right. exact Hy.
Qed.

Lemma falsy_or_cases (shape : pyval -> bool) (v : pyval) :
  falsy_or shape v = true -> Py.truthy v = false \/ Py.truthy v = true /\ shape v = true.
Proof.
  unfold falsy_or. destruct (Py.truthy v); simpl; auto.
Qed.

Lemma is_str_inv (v : pyval) : is_str v = true -> exists s, v = PyStr s.
Proof. destruct v; try discriminate. eauto. Qed.

Lemma dict_of_inv (fields : list (string * pyval) -> bool) (v : pyval) :
  dict_of fields v = true -> exists d, v = PyDict d /\ fields d = true.
Proof. destruct v; try discriminate. eauto. Qed.

Lemma list_of_inv (item : pyval -> bool) (v : pyval) :
  list_of item v = true -> exists l, v = PyList l /\ forallb item l = true.
Proof. destruct v; try discriminate. eauto. Qed.

Lemma strs_returns (l : list pyval) :
  forallb is_str l = true -> exists r, returns (strs l) r.
Proof.
  induction l as [| v l IH]; simpl; intros H.
  - exists []. apply returns_ret.
  - apply andb_prop in H as [Hv Hl]. destruct (is_str_inv v Hv) as [s ->].
    destruct (IH Hl) as [r Hr]. exists (s :: r).
    eapply returns_bind; [exact Hr | apply returns_ret].
Qed.

Lemma filter_truthy_strs (l : list pyval) :
  forallb opt_str l = true -> forallb is_str (List.filter Py.truthy l) = true.
Proof.
  induction l as [| v l IH]; simpl; intros H; [reflexivity |].
  apply andb_prop in H as [Hv Hl].
  destruct (falsy_or_cases _ _ Hv) as [Hf | [Ht Hs]].
  - rewrite Hf. auto.
  - rewrite Ht. simpl. rewrite Hs. auto.
Qed.

Lemma join_truthy_returns (sep : string) (l : list pyval) :
  forallb opt_str l = true -> exists r, returns (join_truthy sep l) r.
Proof.
  intros H. destruct (strs_returns _ (filter_truthy_strs l H)) as [r Hr].
  exists (Py.join sep r). unfold join_truthy.
  eapply returns_bind; [exact Hr | apply returns_ret].
Qed.

Lemma service_port_returns (ev : event) (s : list (string * pyval)) :
  opt_str (Py.dict_get s "port") = true -> returns (service_port ev (PyDict s)) tt.
Proof.
  intros H. unfold service_port. cbn [get].
  eapply returns_bind; [apply returns_ret |].
  destruct (falsy_or_cases _ _ H) as [Hf | [Ht Hs]].
  - rewrite Hf. apply returns_ret.
  - rewrite Ht. destruct (is_str_inv _ Hs) as [p ->]. cbn [add_str].
    eapply returns_bind; [apply returns_ret | apply returns_notify].
Qed.

Lemma service_headers_returns (ev : event) (s : list (string * pyval)) :
  falsy_or headers_shape (Py.dict_get s "headers") = true ->
  returns (service_headers ev (PyDict s)) tt.
Proof.
  intros H. unfold service_headers. cbn [get].
  eapply returns_bind; [apply returns_ret |].
  destruct (falsy_or_cases _ _ H) as [Hf | [Ht Hs]].
  { rewrite Hf. apply returns_ret. }
  rewrite Ht. apply dict_of_inv in Hs as (h & -> & Hh). cbn [get].
  eapply returns_bind; [apply returns_ret |].
  destruct (falsy_or_cases _ _ Hh) as [Hf | [Ht' Hl]].
  { rewrite Hf. apply returns_ret. }
  rewrite Ht'. apply list_of_inv in Hl as (l & -> & Hl). cbn [iter].
  eapply returns_bind; [apply returns_ret |].
  apply returns_for_each. intros server _.
  destruct (Py.truthy server); [apply returns_notify | apply returns_ret].
Qed.

Lemma service_geoip_returns (ev : event) (s : list (string * pyval)) :
  falsy_or geoip_shape (Py.dict_get s "geoip") = true ->
  returns (service_geoip ev (PyDict s)) tt.
Proof.
  intros H. unfold service_geoip. cbn [get].
  eapply returns_bind; [apply returns_ret |].
  destruct (falsy_or_cases _ _ H) as [Hf | [Ht Hs]].
  { rewrite Hf. apply returns_ret. }
  rewrite Ht. apply dict_of_inv in Hs as (g & -> & Hg). cbn [get].
  apply andb_prop in Hg as [Hg Hn]. apply andb_prop in Hg as [Hc Hr].
  do 3 (eapply returns_bind; [apply returns_ret |]).
  destruct (join_truthy_returns ", "
              [Py.dict_get g "city_name"; Py.dict_get g "region_name";
               Py.dict_get g "country_name"]) as [loc Hloc].
  { simpl. rewrite Hc, Hr, Hn. reflexivity. }
  eapply returns_bind; [exact Hloc |].
  destruct (negb (String.eqb loc EmptyString)); [apply returns_notify | apply returns_ret].
Qed.

Lemma service_software_returns (ev : event) (s : list (string * pyval)) :
  falsy_or software_shape (Py.dict_get s "software") = true ->
  returns (service_software ev (PyDict s)) tt.
Proof.
  intros H. unfold service_software. cbn [get].
  eapply returns_bind; [apply returns_ret |].
  destruct (falsy_or_cases _ _ H) as [Hf | [Ht Hs]].
  { rewrite Hf. apply returns_ret. }
  rewrite Ht. apply dict_of_inv in Hs as (w & -> & Hw). cbn [get].
  apply andb_prop in Hw as [Hw Ho]. apply andb_prop in Hw as [Hn Hv].
  do 2 (eapply returns_bind; [apply returns_ret |]).
  destruct (join_truthy_returns " "
              [Py.dict_get w "name"; Py.dict_get w "version"]) as [sv Hsv].
  { simpl. rewrite Hn, Hv. reflexivity. }
  eapply returns_bind; [exact Hsv |].
  eapply returns_bind.
  { destruct (negb (String.eqb sv EmptyString)); [apply returns_notify | apply returns_ret]. }
  eapply returns_bind; [apply returns_ret |].
  destruct (Py.truthy (Py.dict_get w "os")); [apply returns_notify | apply returns_ret].
Qed.

Lemma service_body_returns (ev : event) (service : pyval) :
  service_shape service = true -> returns (service_body ev service) tt.
Proof.
  intros H. apply dict_of_inv in H as (s & -> & H).
  apply andb_prop in H as [H Hw]. apply andb_prop in H as [H Hg].
  apply andb_prop in H as [Hp Hh]. unfold service_body.
  eapply returns_bind; [apply service_port_returns; exact Hp |].
  eapply returns_bind; [apply service_headers_returns; exact Hh |].
  eapply returns_bind; [apply service_geoip_returns; exact Hg |].
  apply service_software_returns; exact Hw.
Qed.

Lemma leak_body_returns (ev : event) (leak : pyval) :
  leak_shape leak = true -> returns (leak_body ev leak) tt.
Proof.
  intros H. apply dict_of_inv in H as (l & -> & H). unfold leak_body. cbn [get].
  eapply returns_bind; [apply returns_ret |].
  destruct (Py.truthy (Py.dict_get l "data")); [apply returns_notify | apply returns_ret].
Qed.

Lemma entries_return (body : pyval -> M unit) (shape : pyval -> bool) (v : pyval) :
  (forall x, shape x = true -> returns (body x) tt) ->
  falsy_or (list_of shape) v = true ->
  returns (if Py.truthy v then bind (iter v) (fun l => for_each body l) else ret tt) tt.
Proof.
  intros Hb H. destruct (falsy_or_cases _ _ H) as [Hf | [Ht Hs]].
  { rewrite Hf. apply returns_ret. }
  rewrite Ht. apply list_of_inv in Hs as (l & -> & Hl). cbn [iter].
  eapply returns_bind; [apply returns_ret |].
  apply returns_for_each. intros x Hx. apply Hb.
  rewrite forallb_forall in Hl. apply Hl. exact Hx.
Qed.

Lemma raises_bind_l {A B} (c : M A) (k : A -> M B) : raises c -> raises (bind c k).
Proof.
  intros (e & t & Hc & Ht). exists e, t. split; [| exact Ht].
  intros m. unfold bind. rewrite Hc. reflexivity.
Qed.

Lemma raises_bind_r {A B} (c : M A) (k : A -> M B) (a : A) :
  returns c a -> raises (k a) -> raises (bind c k).
Proof.
  intros (t & Hc & Ht) (e & t' & Hk & Ht'). exists e, (t ++ t')%list. split.
  - intros m. unfold bind. rewrite Hc, Hk. reflexivity.
  - rewrite forallb_app, Ht, Ht'. reflexivity.
Qed.

Lemma notifier_cases {A} (c : M A) : notifier c -> raises c \/ exists a, returns c a.
Proof.
  intros (o & t & Hc & Ht). destruct o as [a | e].
  - right. exists a, t. auto.
  - left. exists e, t. auto.
Qed.

(** A loop whose bodies only notify raises as soon as one of them does. *)
Lemma for_each_raises {A} (body : A -> M unit) (l : list A) :
  (forall x, notifier (body x)) ->
  Exists (fun x => raises (body x)) l ->
  raises (for_each body l).
Proof.
  intros Hb Hex. induction Hex as [x l Hx | x l Hex IH]; simpl.
  - apply raises_bind_l. exact Hx.
  - destruct (notifier_cases _ (Hb x)) as [Hr | [[] Hr]].
    + apply raises_bind_l. exact Hr.
    + eapply raises_bind_r; [exact Hr | exact IH].
Qed.

Lemma service_body_not_dict (ev : event) (x : pyval) :
  is_dict x = false -> raises (service_body ev x).
Proof.
  intros H. exists AttributeError, []. split; [| reflexivity].
  intros m. destruct x; try discriminate H; reflexivity.
Qed.

Lemma leak_body_not_dict (ev : event) (x : pyval) :
  is_dict x = false -> raises (leak_body ev x).
Proof.
  intros H. exists AttributeError, []. split; [| reflexivity].
  intros m. destruct x; try discriminate H; reflexivity.
Qed.

Lemma entries_raise (body : pyval -> M unit) (l : list pyval) :
  (forall x, notifier (body x)) ->
  (forall x, is_dict x = false -> raises (body x)) ->
  existsb (fun x => negb (is_dict x)) l = true ->
  raises (if Py.truthy (PyList l) then bind (iter (PyList l)) (fun l => for_each body l)
          else ret tt).
Proof.
  intros Hn Hb Hex. apply existsb_exists in Hex as (x & Hin & Hx).
  destruct l as [| y l]; [destruct Hin |]. cbn [Py.truthy iter].
  eapply raises_bind_r; [apply returns_ret |].
  apply for_each_raises; [exact Hn |].
  apply List.Exists_exists. exists x. split; [exact Hin |].
  apply Hb. destruct (is_dict x); [discriminate Hx | reflexivity].
Qed.


(** ** Empty and absent fields *)

Lemma dict_has_get (d : list (string * pyval)) (k : string) :
  Py.dict_has d k = false -> Py.dict_get d k = PyNone.
Proof.
  induction d as [| [k' v] d IH]; simpl; [reflexivity |].
  destruct (String.eqb k' k); simpl; [discriminate | exact IH].
Qed.

Lemma extract_services_falsy (ev : event) (d : list (string * pyval)) (m : machine) :
  Py.truthy (Py.dict_get d "Services") = false ->
  extract_services ev (PyDict d) m = (Ret tt, m, []).
Proof. intros H. unfold extract_services. cbn [get]. rewrite bind_ret_l, H. reflexivity. Qed.

Lemma extract_leaks_falsy (ev : event) (d : list (string * pyval)) (m : machine) :
  Py.truthy (Py.dict_get d "Leaks") = false ->
  extract_leaks ev (PyDict d) m = (Ret tt, m, []).
Proof. intros H. unfold extract_leaks. cbn [get]. rewrite bind_ret_l, H. reflexivity. Qed.

Lemma extract_services_field (ev : event) (d d' : list (string * pyval)) (m : machine) :
  Py.dict_get d "Services" = Py.dict_get d' "Services" ->
  extract_services ev (PyDict d) m = extract_services ev (PyDict d') m.
Proof. intros H. unfold extract_services. cbn [get]. rewrite !bind_ret_l, H. reflexivity. Qed.

Lemma extract_leaks_field (ev : event) (d d' : list (string * pyval)) (m : machine) :
  Py.dict_get d "Leaks" = Py.dict_get d' "Leaks" ->
  extract_leaks ev (PyDict d) m = extract_leaks ev (PyDict d') m.
Proof. intros H. unfold extract_leaks. cbn [get]. rewrite !bind_ret_l, H. reflexivity. Qed.

(** Two documents whose two steps run alike differ in the
    [RAW_RIR_DATA] event only. *)
Lemma extract_alike (ev : event) (doc doc' : pyval) (m : machine) :
  (forall m, extract_services ev doc m = extract_services ev doc' m) ->
  (forall m, extract_leaks ev doc m = extract_leaks ev doc' m) ->
  exists o t,
    extract ev doc m = (o, m, Notify (raw_data ev doc) :: t) /\
    extract ev doc' m = (o, m, Notify (raw_data ev doc') :: t).
Proof.
  intros Hs Hl.
  destruct (notifier_extract_services ev doc') as (o1 & t1 & H1 & _).
  destruct (notifier_extract_leaks ev doc') as (o2 & t2 & H2 & _).
  unfold extract, bind, notifyListeners, emit. rewrite Hs, H1.
  destruct o1 as [[] | e].
  - rewrite Hl, H2. exists o2, (t1 ++ t2)%list. split; reflexivity.
  - exists (Raise e), t1. split; reflexivity.
Qed.

(** C10 (amended).  A document whose [Services] (or [Leaks]) is an empty
    list and a document without that key, alike in their other keys, have
    the same outcome and notify the same events after the [RAW_RIR_DATA]
    event, whose data is the text of the whole document and so differs.
    A service whose [headers], [geoip] or [software] is an empty object
    and a service without that field, alike in their other fields, have
    the same outcome and effects. *)
Theorem empty_as_absent (ev : event) (m : machine) :
  (forall k d d',
      k = "Services" \/ k = "Leaks" ->
      Py.dict_get d k = PyList [] ->
      Py.dict_has d' k = false ->
      (forall k', k' <> k -> Py.dict_get d k' = Py.dict_get d' k') ->
      exists o t,
        extract ev (PyDict d) m = (o, m, Notify (raw_data ev (PyDict d)) :: t) /\
        extract ev (PyDict d') m = (o, m, Notify (raw_data ev (PyDict d')) :: t)) /\
  (forall k s s',
      k = "headers" \/ k = "geoip" \/ k = "software" ->
      Py.dict_get s k = PyDict [] ->
      Py.dict_has s' k = false ->
      (forall k', k' <> k -> Py.dict_get s k' = Py.dict_get s' k') ->
      service_body ev (PyDict s) m = service_body ev (PyDict s') m).
Proof.
  split.
  - intros k d d' Hk He Ha Ho. apply dict_has_get in Ha.
    apply extract_alike; intros m'; destruct Hk as [-> | ->].
    + rewrite !extract_services_falsy by (rewrite ?He, ?Ha; reflexivity). reflexivity.
    + apply extract_services_field. apply Ho. discriminate.
    + apply extract_leaks_field. apply Ho. discriminate.
    + rewrite !extract_leaks_falsy by (rewrite ?He, ?Ha; reflexivity). reflexivity.
  - intros k s s' Hk He Ha Ho. apply dict_has_get in Ha.
    unfold service_body, service_port, service_headers, service_geoip,
      service_software. cbn [get].
    destruct Hk as [-> | [-> | ->]];
      rewrite He, Ha;
      rewrite ?(Ho "port"), ?(Ho "headers"), ?(Ho "geoip"), ?(Ho "software")
        by discriminate;
      reflexivity.
Qed.

(** ** The example of the specification *)

(** Past the guards, on a 200 response whose body decodes to a document that
    is not [None]: the call is the extraction, after the request. *)
Lemma handleEvent_payload (ev : event) (m : machine) (body : string) (doc : pyval) :
  errorState (self m) = false ->
  results (self m) !! data ev = None ->
  eventType ev = "IP_ADDRESS" ->
  0 <= delay (self_opts (self m)) ->
  let o := self_opts (self m) in
  let r := host_request o (data ev) in
  code (fst (fetchUrl (world m) r)) = Some "200" ->
  content (fst (fetchUrl (world m) r)) = Some body ->
  json_loads body = inl doc ->
  is_none doc = false ->
  let m1 := with_world (snd (fetchUrl (world m) r)) (with_result (data ev) m) in
  handleEvent ev m =
    (outcome_of (extract ev doc m1), m1,
     (preamble ev o ++ [Fetch r; Sleep (delay o)] ++ effects_of (extract ev doc m1))%list).
Proof.
  intros He Hr Hty Hd o r Hc Hb Hj Hn m1.
  rewrite (handleEvent_fresh_run ev m He Hr Hty Hd). cbv zeta. fold o. fold r. fold m1.
  rewrite parseAPIResponse_run. unfold code_is. rewrite Hc, Hb, Hj. simpl.
  rewrite Hn.
  pose proof (extract_machine ev doc m1) as Hm.
  destruct (extract ev doc m1) as [[o' m2] t']. unfold machine_of in Hm. simpl in Hm.
  subst m2. rewrite <- app_assoc. reflexivity.
Qed.

(** C1.  For the target 1.2.3.4 and the example document, extraction
    returns after notifying exactly seven events, in this order: the raw
    data (the text of the whole document), the open port, the banner, the
    location, the software, the operating system, the leak content.  A
    [handleEvent] call that receives the document in a 200 response notifies
    exactly these. *)
Theorem example_facts (src : string) (m : machine) :
  let ev := {| eventType := "IP_ADDRESS"; module := src; data := "1.2.3.4" |} in
  let fact ty v := SpiderFootEvent ty (PyStr v) module_name ev in
  let seven :=
    [fact "RAW_RIR_DATA" doc_example_str;
     fact "TCP_PORT_OPEN" "1.2.3.4:443";
     fact "WEBSERVER_BANNER" "nginx";
     fact "GEOINFO" "Paris, France";
     fact "SOFTWARE_USED" "nginx 1.18";
     fact "OPERATING_SYSTEM" "Linux";
     fact "LEAKSITE_CONTENT" "dump1"] in
  Py.str doc_example = doc_example_str /\
  extract ev doc_example m = (Ret tt, m, map Notify seven) /\
  (forall body,
      errorState (self m) = false ->
      results (self m) !! "1.2.3.4" = None ->
      0 <= delay (self_opts (self m)) ->
      let res := fst (fetchUrl (world m) (host_request (self_opts (self m)) "1.2.3.4")) in
      code res = Some "200" ->
      content res = Some body ->
      json_loads body = inl doc_example ->
      outcome_of (handleEvent ev m) = Ret tt /\
      notified (effects_of (handleEvent ev m)) = seven).
Proof.
  intros ev fact seven.
  split; [reflexivity |]. split; [reflexivity |].
  intros body He Hr Hd res Hc Hb Hj.
  rewrite (handleEvent_payload ev m body doc_example He Hr eq_refl Hd Hc Hb Hj eq_refl).
  unfold outcome_of, effects_of. cbn [fst snd].
  split; [reflexivity |].
  rewrite !notified_app, preamble_notified. reflexivity.
Qed.

(** ** The types and the stamps of the events *)

Lemma only_ret (P : produced -> Prop) {A} (a : A) : only P (ret a).
Proof. intros m. constructor. Qed.

Lemma only_raise (P : produced -> Prop) {A} (e : exn) : only P (@raise A e).
Proof. intros m. constructor. Qed.

Lemma only_notify (P : produced -> Prop) (evt : produced) :
  P evt -> only P (notifyListeners evt).
Proof. intros H m. repeat constructor. exact H. Qed.

Lemma only_emit (P : produced -> Prop) (e : effect) :
  is_notify e = false -> only P (emit e).
Proof. intros H m. destruct e; try discriminate H; constructor. Qed.

Lemma only_bind (P : produced -> Prop) {A B} (c : M A) (k : A -> M B) :
  only P c -> (forall a, only P (k a)) -> only P (bind c k).
Proof.
  intros Hc Hk m. specialize (Hc m). unfold bind.
  destruct (c m) as [[o m1] t1]. unfold effects_of in Hc. simpl in Hc.
  destruct o as [a | e]; [| exact Hc].
  specialize (Hk a m1). destruct (k a m1) as [[o' m2] t2].
  unfold effects_of in *. simpl in *. rewrite notified_app.
  apply List.Forall_app. split; assumption.
Qed.

Lemma only_for_each (P : produced -> Prop) {A} (body : A -> M unit) (l : list A) :
  (forall x, only P (body x)) -> only P (for_each body l).
Proof.
  intros Hb. induction l as [| x l IH]; simpl.
  - apply only_ret.
  - apply only_bind; [apply Hb | intros _; exact IH].
Qed.

Lemma only_get (P : produced -> Prop) (v : pyval) (k : string) : only P (get v k).
Proof. destruct v; simpl; auto using only_ret, only_raise. Qed.

Lemma only_iter (P : produced -> Prop) (v : pyval) : only P (iter v).
Proof. destruct v; simpl; auto using only_ret, only_raise. Qed.

Lemma only_add_str (P : produced -> Prop) (s : string) (v : pyval) : only P (add_str s v).
Proof. destruct v; simpl; auto using only_ret, only_raise. Qed.

Lemma only_strs (P : produced -> Prop) (l : list pyval) : only P (strs l).
Proof.
  induction l as [| v l IH]; simpl.
  - apply only_ret.
  - destruct v; try apply only_raise.
    apply only_bind; [exact IH | intros r; apply only_ret].
Qed.

Lemma only_join_truthy (P : produced -> Prop) (sep : string) (l : list pyval) :
  only P (join_truthy sep l).
Proof.
  unfold join_truthy.
  apply only_bind; [apply only_strs | intros r; apply only_ret].
Qed.

Lemma only_impl (P Q : produced -> Prop) {A} (c : M A) :
  (forall p, P p -> Q p) -> only P c -> only Q c.
Proof. intros H Hc m. eapply List.Forall_impl; [exact H | apply Hc]. Qed.

Ltac in_list := cbn [In]; repeat (first [left; reflexivity | right]).

Ltac declared_tac :=
  unfold declared, entry_types, producedEvents; cbn [pType pModule pSource];
  split; [in_list | split; reflexivity].

Ltac only_step :=
  first
    [ apply only_ret
    | apply only_raise
    | apply only_get
    | apply only_iter
    | apply only_add_str
    | apply only_join_truthy
    | apply only_notify; declared_tac
    | apply only_bind; [| intros ?]
    | apply only_for_each; intros ?
    | match goal with
      | |- only _ (if ?b then _ else _) => destruct b
      end ].

Lemma only_service_body (ev : event) (service : pyval) :
  only (declared ev entry_types) (service_body ev service).
Proof.
  unfold service_body, service_port, service_headers, service_geoip,
    service_software.
  repeat only_step.
Qed.

Lemma only_leak_body (ev : event) (leak : pyval) :
  only (declared ev entry_types) (leak_body ev leak).
Proof. unfold leak_body. repeat only_step. Qed.

Lemma only_entries (ev : event) (doc : pyval) :
  only (declared ev entry_types)
    (bind (extract_services ev doc) (fun _ => extract_leaks ev doc)).
Proof.
  apply only_bind; [| intros _].
  - unfold extract_services. repeat only_step.
  - unfold extract_leaks. repeat only_step.
Qed.

Lemma only_queryHost (P : produced -> Prop) (qry : string) : only P (queryHost qry).
Proof.
  intros m. destruct (queryHost_effects qry m) as (rest & -> & _ & Hn).
  cbn [notified]. rewrite Hn. constructor.
Qed.

Lemma only_extract (ev : event) (doc : pyval) :
  only (declared ev producedEvents) (extract ev doc).
Proof.
  unfold extract. apply only_bind.
  - apply only_notify. declared_tac.
  - intros _. eapply only_impl; [| apply only_entries].
    intros p (Ht & Hm & Hs). split; [| split; assumption].
    unfold entry_types in Ht. cbn [In] in Ht. unfold producedEvents.
    repeat (destruct Ht as [Ht | Ht]; [rewrite <- Ht; in_list |]). destruct Ht.
Qed.

Lemma only_handleEvent (ev : event) :
  only (declared ev producedEvents) (handleEvent ev).
Proof.
  unfold handleEvent. apply only_bind; [intros m; constructor | intros s].
  destruct (errorState s); [apply only_ret |].
  destruct (results s !! data ev); [apply only_ret |].
  apply only_bind; [intros m; constructor | intros _].
  apply only_bind; [| intros _].
  { destruct (String.eqb _ _); [apply only_emit; reflexivity | apply only_ret]. }
  apply only_bind; [apply only_emit; reflexivity | intros _].
  destruct (existsb _ _); [| apply only_ret].
  apply only_bind; [apply only_queryHost | intros doc].
  destruct (is_none doc); [apply only_emit; reflexivity | apply only_extract].
Qed.

(** X1.  Whatever the event, the machine and the outcome, every event a
    [handleEvent] call notifies has one of the seven types of
    [producedEvents], names the module as its producer and has the handled
    event as its source; and so has every event notified in a session, for
    one of the events of the session. *)
Theorem declared_events (evs : list event) (m : machine) :
  (forall ev,
      Forall (declared ev producedEvents) (notified (effects_of (handleEvent ev m)))) /\
  Forall (fun p => exists ev, In ev evs /\ declared ev producedEvents p)
    (notified (effects_of (session evs m))).
Proof.
  split; [intros ev; apply only_handleEvent |].
  unfold session.
  assert (H : forall l, (forall x, In x l -> In x evs) ->
                        only (fun p => exists ev, In ev evs /\ declared ev producedEvents p)
                          (for_each (fun ev => attempt (handleEvent ev)) l)).
  { induction l as [| x l IH]; intros Hl; simpl; [apply only_ret |].
    apply only_bind.
    - intros m'. unfold attempt. pose proof (only_handleEvent x m') as Hx.
      destruct (handleEvent x m') as [[o m1] t]. unfold effects_of in *. simpl in *.
      eapply List.Forall_impl; [| exact Hx].
      intros p Hp. exists x. split; [apply Hl; left; reflexivity | exact Hp].
    - intros _. apply IH. intros y Hy. apply Hl. right. exact Hy. }
  apply H. auto.
Qed.

(** X2.  A call for an event whose type is not among [watchedEvents], past
    the two guards, records the target and logs, and does nothing else: no
    [fetchUrl] call, no event notified.  A later call for the same target,
    of whatever type, is then without effect. *)
Theorem unwatched_event_recorded (ev ev' : event) (m : machine) :
  errorState (self m) = false ->
  results (self m) !! data ev = None ->
  ~ In (eventType ev) watchedEvents ->
  data ev' = data ev ->
  handleEvent ev m = (Ret tt, with_result (data ev) m, preamble ev (self_opts (self m))) /\
  offline (preamble ev (self_opts (self m))) = true /\
  notified (preamble ev (self_opts (self m))) = [] /\
  handleEvent ev' (with_result (data ev) m) = (Ret tt, with_result (data ev) m, []).
Proof.
  intros He Hr Hty Hd. split; [| split; [| split]].
  - rewrite (handleEvent_fresh ev m He Hr). cbv zeta. cbn [existsb].
    assert (Hne : eventType ev <> "IP_ADDRESS").
    { intros Heq. apply Hty. left. symmetry. exact Heq. }
    apply String.eqb_neq in Hne. rewrite Hne. reflexivity.
  - apply preamble_offline.
  - apply preamble_notified.
  - apply handleEvent_seen. rewrite Hd. cbn [self with_result results].
    rewrite lookup_insert_eq. eauto.
Qed.

(** X3.  Whatever the decoded value, of the documented shape or not,
    extraction notifies the [RAW_RIR_DATA] event with the text of the whole
    value first, also when it raises afterwards; it leaves the machine as it
    is, and every event after the first is of one of the six types drawn
    from the entries, so that [RAW_RIR_DATA] is notified exactly once. *)
Theorem raw_data_first (ev : event) (doc : pyval) (m : machine) :
  exists o t,
    extract ev doc m = (o, m, Notify (raw_data ev doc) :: t) /\
    forallb is_notify t = true /\
    Forall (declared ev entry_types) (notified t) /\
    ~ In "RAW_RIR_DATA" (map pType (notified t)).
Proof.
  assert (Hn : notifier (bind (extract_services ev doc) (fun _ => extract_leaks ev doc))).
  { apply notifier_bind; [apply notifier_extract_services |].
    intros _. apply notifier_extract_leaks. }
  destruct Hn as (o & t & Hrun & Ht).
  pose proof (only_entries ev doc m) as Hd. rewrite Hrun in Hd.
  unfold effects_of in Hd. simpl in Hd.
  exists o, t. split; [| split; [exact Ht | split; [exact Hd |]]].
  - unfold extract. unfold bind at 1. unfold notifyListeners, emit.
    rewrite Hrun. reflexivity.
  - intros Hin. apply in_map_iff in Hin as (p & Hp & Hin).
    rewrite List.Forall_forall in Hd. destruct (Hd p Hin) as (Hty & _).
    rewrite Hp in Hty. unfold entry_types in Hty. cbn [In] in Hty.
    repeat (destruct Hty as [Hty | Hty]; [discriminate Hty |]). exact Hty.
Qed.

(** ** What a response leads to *)

Lemma code_is_eq (res : response) (c : string) :
  code_is res c = true <-> code res = Some c.
Proof.
  unfold code_is. destruct (code res) as [c' |]; split; intros H; try discriminate H.
  - apply String.eqb_eq in H. congruence.
  - injection H as ->. apply String.eqb_refl.
Qed.

Lemma extract_head (ev : event) (doc : pyval) (m : machine) :
  exists o t, extract ev doc m = (o, m, Notify (raw_data ev doc) :: t).
Proof.
  destruct (notifier_extract_services ev doc) as (o1 & t1 & H1 & _).
  destruct (notifier_extract_leaks ev doc) as (o2 & t2 & H2 & _).
  unfold extract, bind, notifyListeners, emit. rewrite H1.
  destruct o1 as [[] | e]; [rewrite H2 |]; eexists; eexists; reflexivity.
Qed.

(** X4.  [parseAPIResponse] never raises, calls neither [fetchUrl] nor
    [notifyListeners], and changes nothing but the error state, which it
    sets exactly when the code is neither 404 nor 200 (a missing code
    included).  When the code is 200 and the content is a body that
    [json.loads] decodes, it returns the decoded value; in every other case
    it returns [None]. *)
Theorem parse_classification (res : response) (m : machine) :
  (forall body doc,
      code res = Some "200" -> content res = Some body -> json_loads body = inl doc ->
      outcome_of (parseAPIResponse res m) = Ret doc) /\
  ((forall body doc,
       code res = Some "200" -> content res = Some body -> json_loads body = inl doc ->
       False) ->
   outcome_of (parseAPIResponse res m) = Ret PyNone) /\
  (exists v, outcome_of (parseAPIResponse res m) = Ret v) /\
  machine_of (parseAPIResponse res m) =
    (if code_is res "404" || code_is res "200" then m else with_errorState m) /\
  offline (effects_of (parseAPIResponse res m)) = true /\
  notified (effects_of (parseAPIResponse res m)) = [].
Proof.
  rewrite parseAPIResponse_run.
  destruct (code_is res "404") eqn:H404.
  { apply code_is_eq in H404.
    repeat split; try (eexists; reflexivity). intros body doc Hc. congruence. }
  destruct (code_is res "200") eqn:H200.
  - assert (H429 : code_is res "429" = false).
    { apply code_is_eq in H200. unfold code_is. rewrite H200. reflexivity. }
    rewrite H429. simpl. apply code_is_eq in H200.
    destruct (content res) as [body |] eqn:Hb.
    + destruct (json_loads body) as [doc | msg] eqn:Hj.
      * repeat split; try (eexists; reflexivity).
        -- intros body' doc' _ Hb' Hj'. unfold outcome_of. cbn [fst]. congruence.
        -- intros Hno. destruct (Hno body doc H200 eq_refl Hj).
      * repeat split; try (eexists; reflexivity).
        intros body' doc' _ Hb' Hj'. congruence.
    + repeat split; try (eexists; reflexivity).
      intros body' doc' _ Hb'. discriminate Hb'.
  - assert (H200' : code res <> Some "200").
    { intros H. apply code_is_eq in H. congruence. }
    destruct (code_is res "429"); simpl;
      repeat split; try (eexists; reflexivity);
      intros body doc Hc; destruct (H200' Hc).
Qed.

(** X5.  A call past the two guards, for an [IP_ADDRESS] event and with a
    delay that is not negative, notifies at least one event exactly when
    the response has code 200 and a content that [json.loads] decodes to a
    value that is not [None]; the first event notified is then the
    [RAW_RIR_DATA] event of that value.  A body that decodes to [None]
    (the text null) is treated as no data. *)
Theorem notifies_iff_payload (ev : event) (m : machine) :
  errorState (self m) = false ->
  results (self m) !! data ev = None ->
  eventType ev = "IP_ADDRESS" ->
  0 <= delay (self_opts (self m)) ->
  let res := fst (fetchUrl (world m) (host_request (self_opts (self m)) (data ev))) in
  (notified (effects_of (handleEvent ev m)) <> [] <->
   exists body doc,
     code res = Some "200" /\ content res = Some body /\ json_loads body = inl doc /\
     doc <> PyNone) /\
  (forall body doc,
      code res = Some "200" -> content res = Some body -> json_loads body = inl doc ->
      doc <> PyNone ->
      exists t, notified (effects_of (handleEvent ev m)) = raw_data ev doc :: t).
Proof.
  intros He Hr Hty Hd res.
  rewrite (handleEvent_fresh_run ev m He Hr Hty Hd). cbv zeta. fold res.
  rewrite parseAPIResponse_run.
  set (m1 := with_world _ _).
  set (pre := (preamble ev (self_opts (self m)) ++ _)%list).
  assert (Hpre : notified pre = []).
  { unfold pre. rewrite notified_app, preamble_notified. reflexivity. }
  destruct (code_is res "404") eqn:H404.
  { apply code_is_eq in H404. cbn [is_none]. split.
    - split; [intros H; (exfalso; apply H; unfold effects_of; cbn [snd]; rewrite !notified_app, Hpre; reflexivity) |].
      intros (body & doc & Hc & _). congruence.
    - intros body doc Hc. congruence. }
  destruct (code_is res "200") eqn:H200.
  - assert (H429 : code_is res "429" = false).
    { apply code_is_eq in H200. unfold code_is. rewrite H200. reflexivity. }
    rewrite H429. cbn [negb]. apply code_is_eq in H200.
    destruct (content res) as [body |] eqn:Hb.
    + destruct (json_loads body) as [doc | msg] eqn:Hj.
      * destruct (is_none doc) eqn:Hn.
        -- destruct doc; try discriminate Hn. split.
           ++ split; [intros H; (exfalso; apply H; unfold effects_of; cbn [snd]; rewrite !notified_app, Hpre; reflexivity) |].
              intros (body' & doc & _ & Hb' & Hj' & Hd'). congruence.
           ++ intros body' doc _ Hb' Hj' Hd'. congruence.
        -- destruct (extract_head ev doc m1) as (o & t & Hx). rewrite Hx.
           unfold effects_of. cbn [snd app]. rewrite notified_app, Hpre. cbn [notified app].
           split.
           ++ split; [| intros _; discriminate].
              intros _. exists body, doc. repeat split; try assumption.
              intros ->. discriminate Hn.
           ++ intros body' doc' _ Hb' Hj' _.
              assert (doc' = doc) as -> by congruence. eauto.
      * cbn [is_none]. split.
        -- split; [intros H; (exfalso; apply H; unfold effects_of; cbn [snd]; rewrite !notified_app, Hpre; reflexivity) |].
           intros (body' & doc & _ & Hb' & Hj' & _). congruence.
        -- intros body' doc _ Hb' Hj'. congruence.
    + cbn [is_none]. split.
      * split; [intros H; (exfalso; apply H; unfold effects_of; cbn [snd]; rewrite !notified_app, Hpre; reflexivity) |].
        intros (body' & doc & _ & Hb' & _). congruence.
      * intros body' doc _ Hb'. congruence.
  - assert (H200' : code res <> Some "200").
    { intros H. apply code_is_eq in H. congruence. }
    destruct (code_is res "429"); cbn [negb is_none]; split;
      try (split; [intros H; (exfalso; apply H; unfold effects_of; cbn [snd]; rewrite !notified_app, Hpre; reflexivity) |];
           intros (body & doc & Hc & _); congruence);
      intros body doc Hc; congruence.
Qed.

(** X6.  With a negative delay, a call past the two guards for an
    [IP_ADDRESS] event raises [ValueError] at the sleep, after the request
    was made: the response is never looked at, so that the error state stays
    clear whatever the code, nothing is notified, and the target stays
    recorded and is not queried again. *)
Theorem negative_delay_raises (ev : event) (m : machine) :
  errorState (self m) = false ->
  results (self m) !! data ev = None ->
  eventType ev = "IP_ADDRESS" ->
  delay (self_opts (self m)) < 0 ->
  let r := host_request (self_opts (self m)) (data ev) in
  let m1 := with_world (snd (fetchUrl (world m) r)) (with_result (data ev) m) in
  handleEvent ev m =
    (Raise ValueError, m1,
     (preamble ev (self_opts (self m)) ++ [Fetch r; Sleep (delay (self_opts (self m)))])%list) /\
  errorState (self m1) = false /\
  handleEvent ev m1 = (Ret tt, m1, []).
Proof.
  intros He Hr Hty Hd r m1. split; [| split].
  - rewrite (handleEvent_fresh ev m He Hr). rewrite Hty. cbv zeta.
    simpl existsb. cbv iota. rewrite queryHost_run. cbv zeta.
    cbn [self self_opts world with_result with_world].
    replace (delay (self_opts (self m)) <? 0) with true
      by (symmetry; apply Z.ltb_lt; exact Hd).
    reflexivity.
  - exact He.
  - apply handleEvent_seen. unfold m1. cbn [self with_world with_result results].
    rewrite lookup_insert_eq. eauto.
Qed.

(** ** Sessions: what is kept, what is asked, and the pacing *)

Lemma parseAPIResponse_results (res : response) (m : machine) :
  results (self (machine_of (parseAPIResponse res m))) = results (self m).
Proof.
  rewrite parseAPIResponse_run.
  destruct (code_is res "404"); [reflexivity |].
  destruct (code_is res "429"); [reflexivity |].
  destruct (code_is res "200"); simpl; [| reflexivity].
  destruct (content res) as [body |]; [| reflexivity].
  destruct (json_loads body); reflexivity.
Qed.

Lemma queryHost_results (qry : string) (m : machine) :
  results (self (machine_of (queryHost qry m))) = results (self m).
Proof.
  rewrite queryHost_run. cbv zeta.
  set (r := host_request (self_opts (self m)) qry).
  destruct (delay (self_opts (self m)) <? 0); [reflexivity |].
  pose proof (parseAPIResponse_results (fst (fetchUrl (world m) r))
                (with_world (snd (fetchUrl (world m) r)) m)) as H.
  destruct (parseAPIResponse _ _) as [[v m2] t]. exact H.
Qed.

(** The targets recorded after a call: those recorded before, and past the
    guards the target of the call. *)
Lemma handleEvent_results (ev : event) (m : machine) :
  results (self (machine_of (handleEvent ev m))) = results (self m) \/
  results (self (machine_of (handleEvent ev m))) = <[data ev := true]> (results (self m)).
Proof.
  destruct (errorState (self m)) eqn:He.
  { left. rewrite handleEvent_errored by assumption. reflexivity. }
  destruct (results (self m) !! data ev) as [b |] eqn:Hr.
  { left. rewrite handleEvent_seen by (rewrite Hr; eauto). reflexivity. }
  right. rewrite (handleEvent_fresh ev m He Hr). cbv zeta.
  destruct (existsb _ _); [| reflexivity].
  pose proof (queryHost_results (data ev) (with_result (data ev) m)) as Hq.
  destruct (queryHost _ _) as [[v m1] t]. unfold machine_of in *. simpl in Hq |- *.
  destruct v as [doc | e]; [| exact Hq].
  destruct (is_none doc); [exact Hq |].
  pose proof (extract_machine ev doc m1) as Hx.
  destruct (extract ev doc m1) as [[o m2] t']. unfold machine_of in Hx. simpl in Hx |- *.
  subst m2. exact Hq.
Qed.

Lemma session_cons (ev : event) (evs : list event) (m : machine) :
  session (ev :: evs) m =
    (Ret tt,
     machine_of (session evs (machine_of (handleEvent ev m))),
     (effects_of (handleEvent ev m) ++
      effects_of (session evs (machine_of (handleEvent ev m))))%list).
Proof.
  unfold session. simpl. unfold bind. unfold attempt at 1.
  destruct (handleEvent ev m) as [[o m1] t].
  assert (Ho : forall l m0, outcome_of (for_each (fun ev => attempt (handleEvent ev)) l m0) = Ret tt).
  { induction l as [| x l IH]; intros m0; simpl; [reflexivity |].
    unfold bind. unfold attempt at 1. destruct (handleEvent x m0) as [[o0 m0'] t0].
    specialize (IH m0'). destruct (for_each _ l m0') as [[o' m'] t']. exact IH. }
  specialize (Ho evs m1). unfold machine_of, effects_of. simpl.
  destruct (for_each _ evs m1) as [[o' m2] t']. unfold outcome_of in Ho. simpl in Ho.
  subst o'. reflexivity.
Qed.

Lemma session_cons_effects (ev : event) (evs : list event) (m : machine) :
  effects_of (session (ev :: evs) m) =
    (effects_of (handleEvent ev m) ++
     effects_of (session evs (machine_of (handleEvent ev m))))%list.
Proof. rewrite session_cons. reflexivity. Qed.

Lemma session_cons_machine (ev : event) (evs : list event) (m : machine) :
  machine_of (session (ev :: evs) m) =
    machine_of (session evs (machine_of (handleEvent ev m))).
Proof. rewrite session_cons. reflexivity. Qed.

(** X7.  Over a session, whatever the events and the responses: the
    options do not change, a recorded target stays recorded, an error state
    that is set stays set, and the targets recorded at the end are those
    recorded at the start and targets of events of the session. *)
Theorem session_keeps (evs : list event) (m : machine) :
  let m' := machine_of (session evs m) in
  self_opts (self m') = self_opts (self m) /\
  (forall k, is_Some (results (self m) !! k) -> is_Some (results (self m') !! k)) /\
  (errorState (self m) = true -> errorState (self m') = true) /\
  (forall k,
      is_Some (results (self m') !! k) ->
      is_Some (results (self m) !! k) \/ exists ev, In ev evs /\ data ev = k).
Proof.
  intros m'. destruct (session_grows evs m) as (Ho & Hr & He).
  split; [exact Ho | split; [exact Hr | split; [exact He |]]].
  unfold m'. clear. revert m.
  induction evs as [| ev evs IH]; intros m k Hk.
  - left. exact Hk.
  - rewrite session_cons_machine in Hk.
    destruct (IH _ _ Hk) as [H1 | (ev' & Hin & Hd)].
    + destruct (handleEvent_results ev m) as [Heq | Heq]; rewrite Heq in H1.
      * left. exact H1.
      * destruct (decide (data ev = k)) as [Hdk | Hne].
        -- right. exists ev. split; [left; reflexivity | exact Hdk].
        -- left. rewrite lookup_insert_ne in H1 by assumption. exact H1.
    + right. exists ev'. split; [right; exact Hin | exact Hd].
Qed.

(** The effects of a call: none; or the preamble alone; or, with the error
    state clear at the start, the preamble, the request for the target of
    the event, the sleep, and then no request and no sleep. *)
Lemma handleEvent_effects_cases (ev : event) (m : machine) :
  let o := self_opts (self m) in
  effects_of (handleEvent ev m) = [] \/
  effects_of (handleEvent ev m) = preamble ev o \/
  errorState (self m) = false /\
  exists rest,
    effects_of (handleEvent ev m) =
      (preamble ev o ++ Fetch (host_request o (data ev)) :: Sleep (delay o) :: rest)%list /\
    offline rest = true.
Proof.
  intros o. destruct (errorState (self m)) eqn:He.
  { left. rewrite handleEvent_errored by assumption. reflexivity. }
  destruct (results (self m) !! data ev) as [b |] eqn:Hr.
  { left. rewrite handleEvent_seen by (rewrite Hr; eauto). reflexivity. }
  right. destruct (existsb (String.eqb (eventType ev)) ["IP_ADDRESS"]) eqn:Hty.
  - right. split; [reflexivity |].
    assert (eventType ev = "IP_ADDRESS") as Heq.
    { simpl in Hty. rewrite orb_false_r in Hty. apply String.eqb_eq in Hty. exact Hty. }
    apply (handleEvent_fresh_effects ev m He Hr Heq).
  - left. rewrite (handleEvent_fresh ev m He Hr). cbv zeta. rewrite Hty. reflexivity.
Qed.

Lemma string_app_inv (p a b : string) : (p ++ a)%string = (p ++ b)%string -> a = b.
Proof.
  induction p as [| c p IH]; simpl; intros H; [exact H |].
  injection H as H. apply IH. exact H.
Qed.

Lemma is_fetch_of_request (o : options) (target qry : string) :
  is_fetch_of target (Fetch (host_request o qry)) = String.eqb qry target.
Proof.
  unfold is_fetch_of, host_request. cbn [url].
  destruct (String.eqb qry target) eqn:E.
  - apply String.eqb_eq in E. subst. apply String.eqb_refl.
  - apply String.eqb_neq. intros H. apply string_app_inv in H.
    apply String.eqb_neq in E. contradiction.
Qed.

Lemma fetches_of_app (target : string) (t1 t2 : list effect) :
  fetches_of target (t1 ++ t2) = (fetches_of target t1 + fetches_of target t2)%nat.
Proof. unfold fetches_of. rewrite List.filter_app, length_app. reflexivity. Qed.

Lemma fetches_of_cons (target : string) (e : effect) (t : list effect) :
  fetches_of target (e :: t) =
    ((if is_fetch_of target e then 1 else 0) + fetches_of target t)%nat.
Proof. unfold fetches_of. simpl. destruct (is_fetch_of target e); reflexivity. Qed.

Lemma offline_fetches_of (target : string) (t : list effect) :
  offline t = true -> fetches_of target t = 0%nat.
Proof.
  unfold offline, fetches_of. induction t as [| e t IH]; simpl; [reflexivity |].
  intros H. apply andb_prop in H as [He Ht].
  destruct e; simpl in *; try discriminate; auto.
Qed.

(** The requests of one call for a target: one at most; none for another
    target, none when the error state is set or the target recorded; and
    after one, the target is recorded. *)
Lemma handleEvent_fetches_of (target : string) (ev : event) (m : machine) :
  let t := effects_of (handleEvent ev m) in
  (fetches_of target t <= 1)%nat /\
  (errorState (self m) = true \/ is_Some (results (self m) !! target) ->
   fetches_of target t = 0%nat) /\
  (fetches_of target t = 1%nat ->
   is_Some (results (self (machine_of (handleEvent ev m))) !! target)).
Proof.
  intros t. unfold t.
  destruct (handleEvent_effects_cases ev m) as [H | [H | (He & rest & H & Ho)]].
  - rewrite H. repeat split; [cbv; lia | discriminate].
  - rewrite H, (offline_fetches_of _ _ (preamble_offline _ _)).
    repeat split; [lia | discriminate].
  - rewrite H, fetches_of_app, (offline_fetches_of _ _ (preamble_offline _ _)).
    rewrite !fetches_of_cons, is_fetch_of_request. cbn [is_fetch_of].
    rewrite (offline_fetches_of _ _ Ho).
    destruct (String.eqb (data ev) target) eqn:E; cbn [Nat.add].
    + apply String.eqb_eq in E. subst target. split; [lia | split].
      * intros [Hc | Hs]; [congruence |].
        rewrite handleEvent_seen in H by exact Hs. discriminate H.
      * intros _. apply handleEvent_records. exact He.
    + repeat split; [lia | discriminate].
Qed.

(** X8.  In a session, whatever the events and the responses, [fetchUrl]
    is called at most once for the URL of any one target; and it is not
    called for a target that is recorded at the start, nor at all when the
    error state is set at the start. *)
Theorem target_fetched_once (target : string) (evs : list event) (m : machine) :
  (fetches_of target (effects_of (session evs m)) <= 1)%nat /\
  (errorState (self m) = true \/ is_Some (results (self m) !! target) ->
   fetches_of target (effects_of (session evs m)) = 0%nat).
Proof.
  revert m. induction evs as [| ev evs IH]; intros m.
  - split; [cbv; lia | reflexivity].
  - rewrite session_cons_effects, fetches_of_app.
    destruct (handleEvent_fetches_of target ev m) as (Hle & Hzero & Hone).
    destruct (IH (machine_of (handleEvent ev m))) as (IHle & IHzero).
    destruct (handleEvent_grows ev m) as (_ & Hres & Herr).
    split.
    + destruct (fetches_of target (effects_of (handleEvent ev m))) as [| [| n]] eqn:E;
        [lia | | lia].
      rewrite IHzero by (right; apply Hone; reflexivity). lia.
    + intros Hs. rewrite (Hzero Hs). rewrite IHzero; [reflexivity |].
      destruct Hs as [Hs | Hs]; [left; apply Herr; exact Hs | right; apply Hres; exact Hs].
Qed.

Lemma paced_from_app (d : Z) (t1 t2 : list effect) (awaited : bool) :
  paced_from awaited d t1 = true ->
  paced_from awaited d (t1 ++ t2) = paced_from false d t2.
Proof.
  revert awaited. induction t1 as [| e t1 IH]; intros awaited H; simpl in *.
  - destruct awaited; [discriminate H | reflexivity].
  - destruct awaited.
    + destruct e; try discriminate H. apply andb_prop in H as [Hd Ht].
      rewrite Hd. simpl. apply IH. exact Ht.
    + destruct e; try discriminate H; apply IH; exact H.
Qed.

Lemma offline_paced (d : Z) (t : list effect) : offline t = true -> paced d t = true.
Proof.
  unfold offline, paced. induction t as [| e t IH]; simpl; [reflexivity |].
  intros H. apply andb_prop in H as [He Ht].
  destruct e; simpl in *; try discriminate; auto.
Qed.

Lemma handleEvent_paced (ev : event) (m : machine) :
  paced (delay (self_opts (self m))) (effects_of (handleEvent ev m)) = true.
Proof.
  destruct (handleEvent_effects_cases ev m) as [H | [H | (He & rest & H & Ho)]];
    rewrite H.
  - reflexivity.
  - apply offline_paced, preamble_offline.
  - unfold paced.
    rewrite (paced_from_app _ _ _ false (offline_paced _ _ (preamble_offline _ _))).
    cbn [paced_from]. rewrite Z.eqb_refl. apply (offline_paced _ _ Ho).
Qed.

(** X9.  In a session, whatever the events and the responses, every
    [fetchUrl] call is followed at once by a sleep of the configured delay,
    and there is no other sleep: one request, one pause. *)
Theorem session_paced (evs : list event) (m : machine) :
  paced (delay (self_opts (self m))) (effects_of (session evs m)) = true /\
  length (List.filter is_sleep (effects_of (session evs m))) =
    fetches (effects_of (session evs m)).
Proof.
  assert (Hp : forall evs m,
             paced (delay (self_opts (self m))) (effects_of (session evs m)) = true).
  { clear. induction evs as [| ev evs IH]; intros m; [reflexivity |].
    rewrite session_cons_effects. unfold paced.
    rewrite (paced_from_app _ _ _ false (handleEvent_paced ev m)).
    destruct (handleEvent_grows ev m) as (Ho & _). rewrite <- Ho. apply IH. }
  split; [apply Hp |].
  specialize (Hp evs m). revert Hp. unfold paced, fetches.
  generalize (delay (self_opts (self m))) as d.
  generalize (effects_of (session evs m)) as t. clear.
  assert (H : forall t d awaited,
             paced_from awaited d t = true ->
             (length (List.filter is_sleep t) =
              length (List.filter is_fetch t) + (if awaited then 1 else 0))%nat).
  { induction t as [| e t IH]; intros d awaited H; simpl in *.
    - destruct awaited; [discriminate H | reflexivity].
    - destruct awaited.
      + destruct e; try discriminate H. apply andb_prop in H as [_ Ht].
        simpl. rewrite (IH _ _ Ht). lia.
      + destruct e; try discriminate H; simpl; rewrite (IH _ _ H); lia. }
  intros t d Hp. rewrite (H t d false Hp). lia.
Qed.

(** ** Extraction as a list of events *)

Lemma yields_ret {A} (a : A) : yields (ret a) a [].
Proof. intros m. reflexivity. Qed.

Lemma yields_notify (evt : produced) : yields (notifyListeners evt) tt [Notify evt].
Proof. intros m. reflexivity. Qed.

Lemma yields_bind {A B} (c : M A) (k : A -> M B) (a : A) (b : B) (t1 t2 : list effect) :
  yields c a t1 -> yields (k a) b t2 -> yields (bind c k) b (t1 ++ t2).
Proof. intros Hc Hk m. unfold bind. rewrite Hc, Hk. reflexivity. Qed.

Lemma yields_eq {A} (c : M A) (a : A) (t t' : list effect) :
  yields c a t -> t = t' -> yields c a t'.
Proof. intros H <-. exact H. Qed.

Lemma yields_for_each {A} (body : A -> M unit) (tr : A -> list effect) (l : list A) :
  (forall x, In x l -> yields (body x) tt (tr x)) ->
  yields (for_each body l) tt (flat_map tr l).
Proof.
  induction l as [| x l IH]; intros H; simpl.
  - apply yields_ret.
  - eapply yields_bind; [apply H; left; reflexivity |].
    apply IH. intros y Hy. apply H. right. exact Hy.
Qed.

Lemma map_flat_map {A B C} (g : B -> C) (f : A -> list B) (l : list A) :
  flat_map (fun x => map g (f x)) l = map g (flat_map f l).
Proof.
  induction l as [| x l IH]; simpl; [reflexivity |].
  rewrite map_app, IH. reflexivity.
Qed.

Lemma opt_str_cases (v : pyval) :
  opt_str v = true ->
  Py.truthy v = false /\ nonempty_str v = [] \/
  exists p, v = PyStr p /\ Py.truthy v = true /\ nonempty_str v = [p].
Proof.
  intros H. destruct (falsy_or_cases _ _ H) as [Hf | [Ht Hs]].
  - left. split; [exact Hf |]. destruct v; try reflexivity.
    simpl in *. destruct (String.eqb s EmptyString); [reflexivity | discriminate Hf].
  - right. destruct (is_str_inv _ Hs) as [p ->]. exists p.
    split; [reflexivity | split; [exact Ht |]].
    simpl in *. destruct (String.eqb p EmptyString); [discriminate Ht | reflexivity].
Qed.

Lemma falsy_fields (v : pyval) : Py.truthy v = false -> fields v = [].
Proof. destruct v; try reflexivity. destruct d; [reflexivity | discriminate]. Qed.

Lemma falsy_entries (v : pyval) : Py.truthy v = false -> entries v = [].
Proof. destruct v; try reflexivity. destruct l; [reflexivity | discriminate]. Qed.

Lemma yields_if_str (ev : event) (ty : string) (v : pyval) :
  opt_str v = true ->
  yields (if Py.truthy v then notifyListeners (SpiderFootEvent ty v module_name ev)
          else ret tt) tt
    (map Notify (map (fact ev ty) (nonempty_str v))).
Proof.
  intros H. destruct (opt_str_cases v H) as [[Hf Hn] | (p & -> & Ht & Hn)].
  - rewrite Hf, Hn. apply yields_ret.
  - rewrite Ht, Hn. apply yields_notify.
Qed.

Lemma yields_join_truthy (sep : string) (l : list pyval) :
  forallb opt_str l = true ->
  yields (join_truthy sep l) (Py.join sep (flat_map nonempty_str l)) [].
Proof.
  intros H m. unfold join_truthy, bind. rewrite (strs_filter_truthy l m H). reflexivity.
Qed.

Lemma yields_if_nonempty (ev : event) (ty : string) (s : string) :
  yields (if negb (String.eqb s EmptyString) then
            notifyListeners (SpiderFootEvent ty (PyStr s) module_name ev)
          else ret tt) tt
    (map Notify (map (fact ev ty) (nonempty s))).
Proof.
  unfold nonempty. destruct (String.eqb s EmptyString); [apply yields_ret | apply yields_notify].
Qed.

Lemma service_port_yields (ev : event) (s : list (string * pyval)) :
  opt_str (Py.dict_get s "port") = true ->
  yields (service_port ev (PyDict s)) tt (map Notify (port_facts ev s)).
Proof.
  intros H. unfold service_port, port_facts. cbn [get].
  eapply yields_eq; [eapply yields_bind; [apply yields_ret |] | reflexivity].
  destruct (opt_str_cases _ H) as [[Hf Hn] | (p & Hp & Ht & Hn)]; rewrite Hn.
  - rewrite Hf. apply yields_ret.
  - rewrite Ht, Hp. cbn [add_str].
    eapply yields_eq; [eapply yields_bind; [apply yields_ret | apply yields_notify] |].
    reflexivity.
Qed.

Lemma service_headers_yields (ev : event) (s : list (string * pyval)) :
  falsy_or headers_shape (Py.dict_get s "headers") = true ->
  yields (service_headers ev (PyDict s)) tt (map Notify (banner_facts ev s)).
Proof.
  intros H. unfold service_headers, banner_facts. cbn [get].
  eapply yields_eq; [eapply yields_bind; [apply yields_ret |] | reflexivity].
  destruct (falsy_or_cases _ _ H) as [Hf | [Ht Hs]].
  { rewrite Hf, (falsy_fields _ Hf). apply yields_ret. }
  rewrite Ht. apply dict_of_inv in Hs as (h & -> & Hh). cbn [get fields].
  eapply yields_eq; [eapply yields_bind; [apply yields_ret |] | reflexivity].
  destruct (falsy_or_cases _ _ Hh) as [Hf | [Ht' Hl]].
  { rewrite Hf, (falsy_entries _ Hf). apply yields_ret. }
  rewrite Ht'. apply list_of_inv in Hl as (l & -> & Hl). cbn [iter entries].
  eapply yields_eq; [eapply yields_bind; [apply yields_ret |] | reflexivity].
  eapply yields_eq.
  - apply (yields_for_each _
             (fun x => map Notify (map (fact ev "WEBSERVER_BANNER") (nonempty_str x)))).
    intros x Hx. apply yields_if_str.
    rewrite forallb_forall in Hl. apply Hl. exact Hx.
  - rewrite map_flat_map, map_flat_map. reflexivity.
Qed.

Lemma service_geoip_yields (ev : event) (s : list (string * pyval)) :
  falsy_or geoip_shape (Py.dict_get s "geoip") = true ->
  yields (service_geoip ev (PyDict s)) tt (map Notify (geoip_facts ev s)).
Proof.
  intros H. unfold service_geoip, geoip_facts. cbn [get].
  eapply yields_eq; [eapply yields_bind; [apply yields_ret |] | reflexivity].
  destruct (falsy_or_cases _ _ H) as [Hf | [Ht Hs]].
  { rewrite Hf, (falsy_fields _ Hf). apply yields_ret. }
  rewrite Ht. apply dict_of_inv in Hs as (g & -> & Hg). cbn [get fields].
  apply andb_prop in Hg as [Hg Hn]. apply andb_prop in Hg as [Hc Hr].
  do 3 (eapply yields_eq; [eapply yields_bind; [apply yields_ret |] | reflexivity]).
  eapply yields_eq; [eapply yields_bind |].
  - apply yields_join_truthy. cbn [forallb]. rewrite Hc, Hr, Hn. reflexivity.
  - apply yields_if_nonempty.
  - cbn [flat_map app]. rewrite app_nil_r. reflexivity.
Qed.

Lemma service_software_yields (ev : event) (s : list (string * pyval)) :
  falsy_or software_shape (Py.dict_get s "software") = true ->
  yields (service_software ev (PyDict s)) tt (map Notify (software_facts ev s)).
Proof.
  intros H. unfold service_software, software_facts. cbn [get]. cbv zeta.
  eapply yields_eq; [eapply yields_bind; [apply yields_ret |] | reflexivity].
  destruct (falsy_or_cases _ _ H) as [Hf | [Ht Hs]].
  { rewrite Hf, (falsy_fields _ Hf). apply yields_ret. }
  rewrite Ht. apply dict_of_inv in Hs as (w & -> & Hw). cbn [get fields].
  apply andb_prop in Hw as [Hw Ho]. apply andb_prop in Hw as [Hn Hv].
  do 2 (eapply yields_eq; [eapply yields_bind; [apply yields_ret |] | reflexivity]).
  eapply yields_eq; [eapply yields_bind |].
  - apply yields_join_truthy. cbn [forallb]. rewrite Hn, Hv. reflexivity.
  - eapply yields_bind; [apply yields_if_nonempty |].
    eapply yields_eq; [eapply yields_bind; [apply yields_ret |] | reflexivity].
    apply yields_if_str. exact Ho.
  - cbn [flat_map app]. rewrite app_nil_r, map_app. reflexivity.
Qed.

Lemma service_body_yields (ev : event) (service : pyval) :
  service_shape service = true ->
  yields (service_body ev service) tt (map Notify (service_facts ev service)).
Proof.
  intros H. apply dict_of_inv in H as (s & -> & H).
  apply andb_prop in H as [H Hw]. apply andb_prop in H as [H Hg].
  apply andb_prop in H as [Hp Hh]. unfold service_body, service_facts. cbn [fields].
  cbv zeta. rewrite !map_app.
  eapply yields_bind; [apply service_port_yields; exact Hp |].
  eapply yields_bind; [apply service_headers_yields; exact Hh |].
  eapply yields_bind; [apply service_geoip_yields; exact Hg |].
  apply service_software_yields; exact Hw.
Qed.

Lemma leak_body_yields (ev : event) (leak : pyval) :
  leak_shape leak = true ->
  yields (leak_body ev leak) tt (map Notify (leak_facts ev leak)).
Proof.
  intros H. apply dict_of_inv in H as (l & -> & H). unfold leak_body, leak_facts.
  cbn [get fields].
  eapply yields_eq; [eapply yields_bind; [apply yields_ret |] | reflexivity].
  apply yields_if_str. exact H.
Qed.

Lemma entries_yield (body : pyval -> M unit) (shape : pyval -> bool)
    (f : pyval -> list produced) (v : pyval) :
  (forall x, shape x = true -> yields (body x) tt (map Notify (f x))) ->
  falsy_or (list_of shape) v = true ->
  yields (if Py.truthy v then bind (iter v) (fun l => for_each body l) else ret tt) tt
    (map Notify (flat_map f (entries v))).
Proof.
  intros Hb H. destruct (falsy_or_cases _ _ H) as [Hf | [Ht Hs]].
  { rewrite Hf, (falsy_entries _ Hf). apply yields_ret. }
  rewrite Ht. apply list_of_inv in Hs as (l & -> & Hl). cbn [iter entries].
  eapply yields_eq; [eapply yields_bind; [apply yields_ret |] | reflexivity].
  eapply yields_eq.
  - apply (yields_for_each _ (fun x => map Notify (f x))).
    intros x Hx. apply Hb. rewrite forallb_forall in Hl. apply Hl. exact Hx.
  - rewrite map_flat_map. reflexivity.
Qed.

(** X10.  For a document of the documented shape, extraction returns and
    notifies exactly the events of [doc_facts], in that order: the raw
    data; then, for each service in the order of the document, its port,
    its banners, its location, its software and its operating system; then
    the leaks in the order of the document.  Extraction of such a document
    is a function of the event and the document alone. *)
Theorem extract_facts (ev : event) (doc : pyval) (m : machine) :
  well_shaped doc = true ->
  extract ev doc m = (Ret tt, m, map Notify (doc_facts ev doc)).
Proof.
  intros H. apply dict_of_inv in H as (d & -> & H).
  apply andb_prop in H as [Hs Hl]. revert m.
  change (yields (extract ev (PyDict d)) tt (map Notify (doc_facts ev (PyDict d)))).
  unfold extract, doc_facts. cbn [fields map]. rewrite map_app.
  apply (yields_bind _ _ tt tt [_]); [apply yields_notify |].
  eapply yields_bind.
  - unfold extract_services. cbn [get].
    eapply yields_eq; [eapply yields_bind; [apply yields_ret |] | reflexivity].
    apply (entries_yield (service_body ev) service_shape);
      [apply service_body_yields | exact Hs].
  - unfold extract_leaks. cbn [get].
    eapply yields_eq; [eapply yields_bind; [apply yields_ret |] | reflexivity].
    apply (entries_yield (leak_body ev) leak_shape);
      [apply leak_body_yields | exact Hl].
Qed.

Lemma for_each_raises_at {A} (body : A -> M unit) (tr : A -> list effect) (e : exn)
    (l1 : list A) (x : A) (l2 : list A) :
  (forall y, In y l1 -> yields (body y) tt (tr y)) ->
  (forall m, body x m = (Raise e, m, [])) ->
  forall m, for_each body (l1 ++ x :: l2) m = (Raise e, m, flat_map tr l1).
Proof.
  intros Hl Hx. induction l1 as [| y l1 IH]; intros m; simpl.
  - unfold bind. rewrite Hx. reflexivity.
  - unfold bind. rewrite (Hl y (or_introl eq_refl)).
    rewrite IH by (intros z Hz; apply Hl; right; exact Hz). reflexivity.
Qed.

Lemma entries_raise_at (body : pyval -> M unit) (shape : pyval -> bool)
    (f : pyval -> list produced) (e : exn) (l1 : list pyval) (x : pyval) (l2 : list pyval) :
  (forall y, shape y = true -> yields (body y) tt (map Notify (f y))) ->
  forallb shape l1 = true ->
  (forall m, body x m = (Raise e, m, [])) ->
  forall m,
    (if Py.truthy (PyList (l1 ++ x :: l2)) then
       bind (iter (PyList (l1 ++ x :: l2))) (fun l => for_each body l)
     else ret tt) m = (Raise e, m, map Notify (flat_map f l1)).
Proof.
  intros Hb Hl Hx m.
  assert (Ht : Py.truthy (PyList (l1 ++ x :: l2)) = true) by (destruct l1; reflexivity).
  rewrite Ht. cbn [iter]. rewrite bind_ret_l.
  rewrite (for_each_raises_at body (fun y => map Notify (f y)) e l1 x l2).
  - rewrite map_flat_map. reflexivity.
  - intros y Hy. apply Hb. rewrite forallb_forall in Hl. apply Hl. exact Hy.
  - exact Hx.
Qed.

Lemma service_body_not_dict_run (ev : event) (x : pyval) (m : machine) :
  is_dict x = false -> service_body ev x m = (Raise AttributeError, m, []).
Proof. intros H. destruct x; try discriminate H; reflexivity. Qed.

Lemma leak_body_not_dict_run (ev : event) (x : pyval) (m : machine) :
  is_dict x = false -> leak_body ev x m = (Raise AttributeError, m, []).
Proof. intros H. destruct x; try discriminate H; reflexivity. Qed.

(** C4 (amended).  For a document of the documented shape, extraction
    returns without raising, leaves the machine as it is, and notifies the
    [RAW_RIR_DATA] event first and then only further events; a field that
    is absent or falsy is skipped.  For a document whose [Services] or
    [Leaks] is a list with an entry that is not an object, extraction raises
    after the [RAW_RIR_DATA] event, at that entry or at an entry before it.
    When the entries before it are of the documented shape (and, for an
    entry of [Leaks], so is [Services]), it raises [AttributeError] at that
    entry, after the [RAW_RIR_DATA] event and the events of the entries
    before it. *)
Theorem extract_by_shape (ev : event) (doc : pyval) (m : machine) :
  (well_shaped doc = true ->
   exists facts,
     extract ev doc m = (Ret tt, m, Notify (raw_data ev doc) :: facts) /\
     forallb is_notify facts = true) /\
  (forall d k l,
      doc = PyDict d ->
      k = "Services" \/ k = "Leaks" ->
      Py.dict_get d k = PyList l ->
      existsb (fun x => negb (is_dict x)) l = true ->
      exists e facts,
        extract ev doc m = (Raise e, m, Notify (raw_data ev doc) :: facts) /\
        forallb is_notify facts = true) /\
  (forall d l1 x l2,
      doc = PyDict d ->
      Py.dict_get d "Services" = PyList (l1 ++ x :: l2) ->
      forallb service_shape l1 = true ->
      is_dict x = false ->
      extract ev doc m =
        (Raise AttributeError, m,
         map Notify (raw_data ev doc :: flat_map (service_facts ev) l1))) /\
  (forall d l1 x l2,
      doc = PyDict d ->
      falsy_or (list_of service_shape) (Py.dict_get d "Services") = true ->
      Py.dict_get d "Leaks" = PyList (l1 ++ x :: l2) ->
      forallb leak_shape l1 = true ->
      is_dict x = false ->
      extract ev doc m =
        (Raise AttributeError, m,
         map Notify
           (raw_data ev doc ::
            flat_map (service_facts ev) (entries (Py.dict_get d "Services")) ++
            flat_map (leak_facts ev) l1))).
Proof.
  split; [| split; [| split]].
  - intros H. apply dict_of_inv in H as (d & -> & H).
    apply andb_prop in H as [Hs Hl].
    assert (Hrest : returns (bind (extract_services ev (PyDict d))
                               (fun _ => extract_leaks ev (PyDict d))) tt).
    { eapply returns_bind.
      - unfold extract_services. cbn [get].
        eapply returns_bind; [apply returns_ret |].
        apply (entries_return (service_body ev) service_shape);
          [apply service_body_returns | exact Hs].
      - unfold extract_leaks. cbn [get].
        eapply returns_bind; [apply returns_ret |].
        apply (entries_return (leak_body ev) leak_shape);
          [apply leak_body_returns | exact Hl]. }
    destruct Hrest as (t & Ht & Hn). exists t. split; [| exact Hn].
    unfold extract. unfold bind at 1. unfold notifyListeners, emit.
    rewrite Ht. reflexivity.
  - intros d k l -> Hk Hg Hex.
    assert (Hrest : raises (bind (extract_services ev (PyDict d))
                              (fun _ => extract_leaks ev (PyDict d)))).
    { destruct Hk as [-> | ->].
      - apply raises_bind_l. unfold extract_services. cbn [get].
        eapply raises_bind_r; [apply returns_ret |]. cbv beta. rewrite Hg.
        apply entries_raise;
          [apply notifier_service_body | apply service_body_not_dict | exact Hex].
      - destruct (notifier_cases _ (notifier_extract_services ev (PyDict d)))
          as [Hr | [[] Hr]]; [apply raises_bind_l; exact Hr |].
        eapply raises_bind_r; [exact Hr |]. unfold extract_leaks. cbn [get].
        eapply raises_bind_r; [apply returns_ret |]. cbv beta. rewrite Hg.
        apply entries_raise;
          [apply notifier_leak_body | apply leak_body_not_dict | exact Hex]. }
    destruct Hrest as (e & t & Ht & Hn). exists e, t. split; [| exact Hn].
    unfold extract. unfold bind at 1. unfold notifyListeners, emit.
    rewrite Ht. reflexivity.
  - intros d l1 x l2 -> Hd Hl Hx.
    assert (Hs : forall m', extract_services ev (PyDict d) m' =
                   (Raise AttributeError, m', map Notify (flat_map (service_facts ev) l1))).
    { intros m'. unfold extract_services. cbn [get]. rewrite bind_ret_l, Hd.
      apply (entries_raise_at (service_body ev) service_shape);
        [apply service_body_yields | exact Hl |].
      intros m0. apply service_body_not_dict_run. exact Hx. }
    unfold extract. unfold bind at 1. unfold notifyListeners, emit. unfold bind at 1.
    rewrite Hs. reflexivity.
  - intros d l1 x l2 -> Hsv Hd Hl Hx.
    assert (Hs : yields (extract_services ev (PyDict d)) tt
                   (map Notify (flat_map (service_facts ev)
                                  (entries (Py.dict_get d "Services"))))).
    { unfold extract_services. cbn [get].
      eapply yields_eq; [eapply yields_bind; [apply yields_ret |] | reflexivity].
      apply (entries_yield (service_body ev) service_shape);
        [apply service_body_yields | exact Hsv]. }
    assert (Hk : forall m', extract_leaks ev (PyDict d) m' =
                   (Raise AttributeError, m', map Notify (flat_map (leak_facts ev) l1))).
    { intros m'. unfold extract_leaks. cbn [get]. rewrite bind_ret_l, Hd.
      apply (entries_raise_at (leak_body ev) leak_shape);
        [apply leak_body_yields | exact Hl |].
      intros m0. apply leak_body_not_dict_run. exact Hx. }
    unfold extract. unfold bind at 1. unfold notifyListeners, emit. unfold bind at 1.
    rewrite Hs, Hk. cbn [map app]. rewrite map_app. reflexivity.
Qed.

(** ** Entries off the documented shape, and empty entries *)

Lemma chars_banners (ev : event) (sv : string) :
  yields
    (for_each
       (fun server =>
          if Py.truthy server then
            notifyListeners (SpiderFootEvent "WEBSERVER_BANNER" server module_name ev)
          else ret tt)
       (Py.chars sv)) tt
    (map (fun c => Notify (SpiderFootEvent "WEBSERVER_BANNER" c module_name ev)) (Py.chars sv)).
Proof.
  induction sv as [| c sv IH]; simpl.
  - apply yields_ret.
  - apply (yields_bind _ _ tt tt [_]); [apply yields_notify | exact IH].
Qed.

(** X11.  When [Server], under the [headers] of a service, is a str and not
    a list of str, the loop over it draws its characters: one
    [WEBSERVER_BANNER] event is notified for each character of the str, in
    order, and none for the str as a whole. *)
Theorem server_str_banners (ev : event) (s h : list (string * pyval)) (sv : string)
    (m : machine) :
  Py.dict_get s "headers" = PyDict h ->
  Py.dict_get h "Server" = PyStr sv ->
  service_headers ev (PyDict s) m =
    (Ret tt, m,
     map (fun c => Notify (SpiderFootEvent "WEBSERVER_BANNER" c module_name ev))
       (Py.chars sv)) /\
  length (notified (effects_of (service_headers ev (PyDict s) m))) = String.length sv.
Proof.
  intros Hh Hs.
  assert (Hrun : service_headers ev (PyDict s) m =
            (Ret tt, m,
             map (fun c => Notify (SpiderFootEvent "WEBSERVER_BANNER" c module_name ev))
               (Py.chars sv))).
  { unfold service_headers. cbn [get]. rewrite bind_ret_l, Hh.
    destruct h as [| kv h]; [discriminate Hs |].
    cbn [Py.truthy get]. rewrite bind_ret_l, Hs.
    destruct sv as [| c sv]; [reflexivity |].
    change (Py.truthy (PyStr (String c sv))) with true. cbv iota.
    cbn [iter]. rewrite bind_ret_l. apply chars_banners. }
  split; [exact Hrun |]. rewrite Hrun. unfold effects_of. cbn [snd].
  clear. induction sv as [| c sv IH]; simpl; [reflexivity |]. rewrite IH. reflexivity.
Qed.


Lemma for_each_skip {A} (body : A -> M unit) (x : A) (l1 l2 : list A) (m : machine) :
  (forall m', body x m' = (Ret tt, m', [])) ->
  for_each body (l1 ++ x :: l2) m = for_each body (l1 ++ l2) m.
Proof.
  intros Hx. revert m. induction l1 as [| y l1 IH]; intros m; simpl.
  - unfold bind. rewrite Hx. destruct (for_each body l2 m) as [[o m'] t]. reflexivity.
  - unfold bind. destruct (body y m) as [[o m1] t1]. destruct o; [| reflexivity].
    rewrite IH. reflexivity.
Qed.

Lemma entries_skip (body : pyval -> M unit) (x : pyval) (l1 l2 : list pyval) (m : machine) :
  (forall m', body x m' = (Ret tt, m', [])) ->
  (if Py.truthy (PyList (l1 ++ x :: l2)) then
     bind (iter (PyList (l1 ++ x :: l2))) (fun l => for_each body l)
   else ret tt) m =
  (if Py.truthy (PyList (l1 ++ l2)) then
     bind (iter (PyList (l1 ++ l2))) (fun l => for_each body l)
   else ret tt) m.
Proof.
  intros Hx.
  assert (Ht : Py.truthy (PyList (l1 ++ x :: l2)) = true) by (destruct l1; reflexivity).
  rewrite Ht. cbn [iter]. rewrite bind_ret_l, for_each_skip by exact Hx.
  destruct (l1 ++ l2)%list as [| y l] eqn:E; [reflexivity |].
  cbn [Py.truthy]. rewrite bind_ret_l. reflexivity.
Qed.

(** X13.  An entry of [Services] or of [Leaks] that is an empty object
    yields no event and does not stop the loop: a document with such an
    entry anywhere in the list and the document without it, alike in their
    other keys, have the same outcome and notify the same events after the
    [RAW_RIR_DATA] event. *)
Theorem empty_entry_skipped (ev : event) (k : string) (d d' : list (string * pyval))
    (l1 l2 : list pyval) (m : machine) :
  k = "Services" \/ k = "Leaks" ->
  Py.dict_get d k = PyList (l1 ++ PyDict [] :: l2) ->
  Py.dict_get d' k = PyList (l1 ++ l2) ->
  (forall k', k' <> k -> Py.dict_get d k' = Py.dict_get d' k') ->
  exists o t,
    extract ev (PyDict d) m = (o, m, Notify (raw_data ev (PyDict d)) :: t) /\
    extract ev (PyDict d') m = (o, m, Notify (raw_data ev (PyDict d')) :: t).
Proof.
  intros Hk Hd Hd' Ho.
  apply extract_alike; intros m'; destruct Hk as [-> | ->].
  - unfold extract_services. cbn [get]. rewrite !bind_ret_l, Hd, Hd'.
    apply entries_skip. intros m0. reflexivity.
  - apply extract_services_field. apply Ho. discriminate.
  - apply extract_leaks_field. apply Ho. discriminate.
  - unfold extract_leaks. cbn [get]. rewrite !bind_ret_l, Hd, Hd'.
    apply entries_skip. intros m0. reflexivity.
Qed.

(** ** The options after [setup] *)

Lemma dict_has_keys (d : list (string * pyval)) (k : string) :
  Py.dict_has d k = existsb (fun k' => String.eqb k' k) (map fst d).
Proof.
  induction d as [| [k' v] d IH]; simpl; [reflexivity |]. rewrite IH. reflexivity.
Qed.

Lemma fold_insert_lookup (g : string -> pyval) (l : list string) (o : gmap string pyval)
    (k : string) :
  fold_left (fun o opt => <[opt := g opt]> o) l o !! k =
    if existsb (fun k' => String.eqb k' k) l then Some (g k) else o !! k.
Proof.
  revert o. induction l as [| a l IH]; intros o; simpl; [reflexivity |].
  rewrite IH. destruct (String.eqb a k) eqn:E; simpl.
  - apply String.eqb_eq in E. subst a.
    destruct (existsb _ l); [reflexivity | apply lookup_insert_eq].
  - apply String.eqb_neq in E.
    destruct (existsb _ l); [reflexivity | apply lookup_insert_ne; exact E].
Qed.

(** X14.  After [setup], an option that [userOpts] holds has the value
    [userOpts] gives it, whether the module declares that option or not,
    and every other option keeps the value it had; with no user option the
    options are left as they were. *)
Theorem setup_opts_lookup (opts : gmap string pyval) (userOpts : list (string * pyval))
    (k : string) :
  setup_opts opts userOpts !! k =
    (if Py.dict_has userOpts k then Some (Py.dict_get userOpts k) else opts !! k) /\
  setup_opts opts [] = opts.
Proof.
  split; [| reflexivity].
  unfold setup_opts. rewrite fold_insert_lookup, dict_has_keys. reflexivity.
Qed.

(** ** When a call returns, and where its requests go *)

Lemma extract_returns (ev : event) (doc : pyval) :
  well_shaped doc = true -> returns (extract ev doc) tt.
Proof.
  intros H. apply dict_of_inv in H as (d & -> & H).
  apply andb_prop in H as [Hs Hl]. unfold extract.
  eapply returns_bind; [apply returns_notify |].
  eapply returns_bind.
  - unfold extract_services. cbn [get].
    eapply returns_bind; [apply returns_ret |].
    apply (entries_return (service_body ev) service_shape);
      [apply service_body_returns | exact Hs].
  - unfold extract_leaks. cbn [get].
    eapply returns_bind; [apply returns_ret |].
    apply (entries_return (leak_body ev) leak_shape);
      [apply leak_body_returns | exact Hl].
Qed.

(** X15.  With a delay that is not negative, and when every body that
    [json.loads] decodes gives [None] or a document of the documented
    shape, no [handleEvent] call raises, whatever the event, the machine
    and the response. *)
Theorem handleEvent_returns (ev : event) (m : machine) :
  0 <= delay (self_opts (self m)) ->
  (forall body doc, json_loads body = inl doc -> is_none doc = true \/ well_shaped doc = true) ->
  outcome_of (handleEvent ev m) = Ret tt.
Proof.
  intros Hd Hj.
  destruct (errorState (self m)) eqn:He.
  { rewrite handleEvent_errored by assumption. reflexivity. }
  destruct (results (self m) !! data ev) as [b |] eqn:Hr.
  { rewrite handleEvent_seen by (rewrite Hr; eauto). reflexivity. }
  destruct (existsb (String.eqb (eventType ev)) ["IP_ADDRESS"]) eqn:Hty.
  2:{ rewrite (handleEvent_fresh ev m He Hr). cbv zeta. rewrite Hty. reflexivity. }
  assert (eventType ev = "IP_ADDRESS") as Heq.
  { simpl in Hty. rewrite orb_false_r in Hty. apply String.eqb_eq in Hty. exact Hty. }
  rewrite (handleEvent_fresh_run ev m He Hr Heq Hd). cbv zeta.
  rewrite parseAPIResponse_run.
  destruct (code_is _ "404"); [reflexivity |].
  destruct (code_is _ "429"); [reflexivity |].
  destruct (code_is _ "200"); cbn [negb]; [| reflexivity].
  destruct (content _) as [body |]; [| reflexivity].
  destruct (json_loads body) as [doc | msg] eqn:Hb; [| reflexivity].
  destruct (is_none doc) eqn:Hn; [reflexivity |].
  destruct (Hj body doc Hb) as [Hnone | Hw]; [congruence |].
  destruct (extract_returns ev doc Hw) as (t & Hx & _). rewrite Hx. reflexivity.
Qed.

Lemma offline_no_fetch (r : request) (t : list effect) :
  offline t = true -> ~ In (Fetch r) t.
Proof.
  unfold offline. intros H Hin. rewrite forallb_forall in H.
  specialize (H _ Hin). discriminate H.
Qed.

Lemma handleEvent_requests (ev : event) (m : machine) (r : request) :
  In (Fetch r) (effects_of (handleEvent ev m)) ->
  r = host_request (self_opts (self m)) (data ev).
Proof.
  intros Hin.
  destruct (handleEvent_effects_cases ev m) as [H | [H | (He & rest & H & Ho)]];
    rewrite H in Hin.
  - destruct Hin.
  - destruct (offline_no_fetch r _ (preamble_offline _ _) Hin).
  - apply in_app_or in Hin as [Hin | Hin].
    + destruct (offline_no_fetch r _ (preamble_offline _ _) Hin).
    + destruct Hin as [Hin | [Hin | Hin]].
      * injection Hin as <-. reflexivity.
      * discriminate Hin.
      * destruct (offline_no_fetch r _ Ho Hin).
Qed.

(** X16.  Every [fetchUrl] call of a session is the request for a target
    of one of its events: the URL is the address of the host page of that
    target at leakix.net, the headers ask for JSON and carry the configured
    key, the timeout is 15 and the user agent is the configured one.  No
    other address is ever called. *)
Theorem session_requests (evs : list event) (m : machine) (r : request) :
  In (Fetch r) (effects_of (session evs m)) ->
  exists ev,
    In ev evs /\
    r = {| url := "https://leakix.net/host/" ++ data ev;
           headers := [("Accept", "application/json");
                       ("api-key", api_key (self_opts (self m)))];
           timeout := 15;
           useragent := _useragent (self_opts (self m)) |}.
Proof.
  revert m. induction evs as [| ev evs IH]; intros m Hin.
  - destruct Hin.
  - rewrite session_cons_effects in Hin. apply in_app_or in Hin as [Hin | Hin].
    + exists ev. split; [left; reflexivity |].
      apply handleEvent_requests in Hin. exact Hin.
    + destruct (IH _ Hin) as (ev' & Hev & Hr).
      destruct (handleEvent_grows ev m) as (Ho & _). rewrite Ho in Hr.
      exists ev'. split; [right; exact Hev | exact Hr].
Qed.

End Leakix.

(** * The properties on the scripted transport *)

Example run_not_found :
  effects_of
    (handleEvent (list response) scripted loads_example (example_event "1.2.3.4")
       (example_machine [example_response "404" None])) =
    [SetResult "1.2.3.4";
     Debug "You enabled sfp_leakix but did not set an API key, results are limited";
     Debug "Received event, IP_ADDRESS, from sfp_dnsresolve";
     Fetch {| url := "https://leakix.net/host/1.2.3.4";
              headers := [("Accept", "application/json"); ("api-key", EmptyString)];
              timeout := 15;
              useragent := "SpiderFoot" |};
     Sleep 1;
     Debug "Host not found";
     Debug "No information found for host 1.2.3.4"].
Proof. reflexivity. Qed.

Example run_session :
  let r :=
    session (list response) scripted loads_example
      [example_event "1.2.3.4"; example_event "1.2.3.4"; example_event "5.6.7.8";
       example_event "9.9.9.9"]
      (example_machine
         [example_response "200" (Some "{}"); example_response "500" None;
          example_response "200" (Some "{}")]) in
  fetches (effects_of r) = 2%nat /\
  notified (effects_of r) =
    [SpiderFootEvent "RAW_RIR_DATA" (PyStr "{}") module_name (example_event "1.2.3.4")] /\
  errorState (self (machine_of r)) = true /\
  world (machine_of r) = [example_response "200" (Some "{}")].
Proof. repeat split. Qed.

Lemma example_facts_witness :
  let m := example_machine [example_response "200" (Some "{}")] in
  let r := handleEvent (list response) scripted (loads_doc doc_example)
             (example_event "1.2.3.4") m in
  outcome_of r = Ret tt /\ length (notified (effects_of r)) = 7%nat.
Proof.
  intros m r.
  destruct (example_facts (list response) scripted (loads_doc doc_example)
              "sfp_dnsresolve" m) as (_ & _ & H).
  destruct (H "{}" eq_refl eq_refl ltac:(discriminate) eq_refl eq_refl eq_refl)
    as [Ho Hn].
  split; [exact Ho | exact (f_equal (@length produced) Hn)].
Defined.

Lemma errored_is_absorbing_witness :
  let m := example_machine [example_response "500" None] in
  let m1 :=
    machine_of (handleEvent (list response) scripted loads_example
                  (example_event "1.2.3.4") m) in
  let evs := [example_event "1.2.3.4"; example_event "5.6.7.8"] in
  errorState
    (self (machine_of (parseAPIResponse (list response) loads_example
                         (example_response "500" None) m))) = true /\
  (errorState (self m1) = true /\
   session (list response) scripted loads_example evs m1 = (Ret tt, m1, [])) /\
  session (list response) scripted loads_example evs (with_errorState m) =
    (Ret tt, with_errorState m, []).
Proof.
  intros m m1 evs. split; [| split].
  - apply (proj1 (errored_is_absorbing (list response) scripted loads_example m evs
                    (example_event "1.2.3.4")));
      reflexivity.
  - apply (proj1 (proj2 (errored_is_absorbing (list response) scripted loads_example m evs
                           (example_event "1.2.3.4"))));
      solve [reflexivity | discriminate].
  - apply (proj2 (proj2 (errored_is_absorbing (list response) scripted loads_example
                           (with_errorState m) evs (example_event "1.2.3.4")))).
    reflexivity.
Defined.

Lemma handled_once_witness :
  let ev := example_event "1.2.3.4" in
  let m :=
    example_machine [example_response "200" (Some "{}"); example_response "404" None] in
  let r1 := handleEvent (list response) scripted loads_example ev m in
  let m2 :=
    machine_of
      (session (list response) scripted loads_example [example_event "5.6.7.8"]
         (machine_of r1)) in
  results (self m) !! "1.2.3.4" = None /\
  (exists rest, effects_of r1 = SetResult "1.2.3.4" :: rest) /\
  errorState (self m2) = false /\
  is_Some (results (self m2) !! "1.2.3.4") /\
  handleEvent (list response) scripted loads_example ev m2 = (Ret tt, m2, []).
Proof.
  intros ev m r1 m2.
  destruct (handled_once (list response) scripted loads_example ev ev
              [example_event "5.6.7.8"] m eq_refl) as (_ & _ & Hrec & Hhd & Hsnd).
  split; [reflexivity |].
  split; [exact (Hhd eq_refl eq_refl) |].
  split; [reflexivity |].
  split; [exact (proj2 (Hrec eq_refl)) | exact Hsnd].
Defined.

(** A service that is a number: [service.get] raises, after the
    [RAW_RIR_DATA] event. *)
Lemma number_service_raises :
  extract (list response) (example_event "1.2.3.4") doc_number_service (example_machine []) =
    (Raise AttributeError, example_machine [],
     [Notify (raw_data (example_event "1.2.3.4") doc_number_service)]).
Proof. reflexivity. Qed.

Lemma extract_by_shape_witness :
  (exists facts,
      extract (list response) (example_event "1.2.3.4") doc_example (example_machine []) =
        (Ret tt, example_machine [],
         Notify (raw_data (example_event "1.2.3.4") doc_example) :: facts) /\
      forallb is_notify facts = true) /\
  (exists e facts,
      extract (list response) (example_event "1.2.3.4") doc_number_service
        (example_machine []) =
        (Raise e, example_machine [],
         Notify (raw_data (example_event "1.2.3.4") doc_number_service) :: facts) /\
      forallb is_notify facts = true) /\
  map (fun evt => pType evt)
    (notified (effects_of (extract (list response) (example_event "1.2.3.4")
                             doc_service_then_number (example_machine [])))) =
    ["RAW_RIR_DATA"; "TCP_PORT_OPEN"; "GEOINFO"] /\
  outcome_of (extract (list response) (example_event "1.2.3.4") doc_leak_then_null
                (example_machine [])) = Raise AttributeError.
Proof.
  pose proof (extract_by_shape (list response) (example_event "1.2.3.4")) as H.
  split; [| split; [| split]].
  - apply (proj1 (H doc_example (example_machine []))). reflexivity.
  - apply (proj1 (proj2 (H doc_number_service (example_machine [])))
             [("Services", PyList [PyInt 1])] "Services" [PyInt 1]);
      [reflexivity | left; reflexivity | reflexivity | reflexivity].
  - rewrite (proj1 (proj2 (proj2 (H doc_service_then_number (example_machine []))))
               [("Services", PyList [PyDict service_example; PyInt 1])]
               [PyDict service_example] (PyInt 1) [] eq_refl eq_refl eq_refl eq_refl).
    reflexivity.
  - rewrite (proj2 (proj2 (proj2 (H doc_leak_then_null (example_machine []))))
               [("Services", PyList [PyDict service_example]);
                ("Leaks", PyList [PyDict [("data", PyStr "dump1")]; PyNone])]
               [PyDict [("data", PyStr "dump1")]] PyNone [] eq_refl eq_refl eq_refl eq_refl
               eq_refl).
    reflexivity.
Defined.

Lemma rate_limited_witness :
  let res := example_response "429" None in
  let m := example_machine [res] in
  let r := handleEvent (list response) scripted loads_example (example_event "1.2.3.4") m in
  code res = Some "429" /\
  notified (effects_of r) = [] /\
  errorState (self (machine_of r)) = true.
Proof.
  intros res m r. split; [reflexivity |].
  destruct (rate_limited (list response) scripted loads_example res m [] eq_refl)
    as (_ & _ & _ & H).
  destruct (H (example_event "1.2.3.4") eq_refl eq_refl eq_refl ltac:(discriminate) eq_refl)
    as (_ & Hn & He & _).
  split; [exact Hn | exact He].
Defined.

Lemma not_found_witness :
  let res := example_response "404" None in
  let m := example_machine [res] in
  let r := handleEvent (list response) scripted loads_example (example_event "1.2.3.4") m in
  code res = Some "404" /\
  notified (effects_of r) = [] /\
  errorState (self (machine_of r)) = false.
Proof.
  intros res m r. split; [reflexivity |].
  destruct (not_found (list response) scripted loads_example res m eq_refl) as (_ & H).
  destruct (H (example_event "1.2.3.4") eq_refl eq_refl eq_refl ltac:(discriminate) eq_refl)
    as (_ & Hn & He).
  split; [exact Hn | exact He].
Defined.

Lemma undecodable_body_witness :
  let res := example_response "200" (Some "<html>") in
  let m := example_machine [res] in
  let r := handleEvent (list response) scripted loads_example (example_event "1.2.3.4") m in
  loads_example "<html>" = inr "Expecting value: line 1 column 1 (char 0)" /\
  notified (effects_of r) = [] /\
  errorState (self (machine_of r)) = false.
Proof.
  intros res m r. split; [reflexivity |].
  destruct (undecodable_body (list response) scripted loads_example res "<html>"
              "Expecting value: line 1 column 1 (char 0)" m eq_refl eq_refl eq_refl)
    as (_ & H).
  destruct (H (example_event "1.2.3.4") eq_refl eq_refl eq_refl ltac:(discriminate) eq_refl)
    as (_ & Hn & He).
  split; [exact Hn | exact He].
Defined.

(** A region that is a number: the join raises, where the claim has the
    location of the city and the country. *)
Lemma geoip_number_raises :
  geo_location geoip_number = "Paris, France" /\
  service_geoip (list response) (example_event "1.2.3.4") (PyDict service_number_geoip)
    (example_machine []) = (Raise TypeError, example_machine [], []).
Proof. split; reflexivity. Qed.

Lemma geoinfo_location_witness :
  service_geoip (list response) (example_event "1.2.3.4") (PyDict service_example)
    (example_machine []) =
    (Ret tt, example_machine [],
     [Notify (SpiderFootEvent "GEOINFO" (PyStr "Paris, France") module_name
                (example_event "1.2.3.4"))]) /\
  service_geoip (list response) (example_event "1.2.3.4") (PyDict service_number_geoip)
    (example_machine []) = (Raise TypeError, example_machine [], []).
Proof.
  split.
  - exact (proj1 (geoinfo_location (list response) (example_event "1.2.3.4") service_example
                    geoip_example (example_machine []) eq_refl)
             eq_refl eq_refl eq_refl).
  - exact (proj2 (geoinfo_location (list response) (example_event "1.2.3.4")
                    service_number_geoip geoip_number (example_machine []) eq_refl)
             eq_refl).
Defined.

Lemma one_call_then_sleep_witness :
  let ev := example_event "1.2.3.4" in
  let m := example_machine [example_response "503" None] in
  0 <= delay (self_opts (self m)) /\
  fetches (effects_of (handleEvent (list response) scripted loads_example ev m)) = 1%nat.
Proof.
  intros ev m. split; [discriminate |].
  destruct (one_call_then_sleep (list response) scripted loads_example ev m
              ltac:(discriminate)) as (_ & H).
  destruct (H eq_refl eq_refl eq_refl) as (rest & _ & _ & Hf). exact Hf.
Defined.

(** An empty list of services and no [Services] key: the [RAW_RIR_DATA]
    events differ. *)
Lemma empty_services_raw_differs :
  notified (effects_of (extract (list response) (example_event "1.2.3.4") doc_no_services
                          (example_machine []))) =
    [SpiderFootEvent "RAW_RIR_DATA" (PyStr "{'Services': []}") module_name
       (example_event "1.2.3.4")] /\
  notified (effects_of (extract (list response) (example_event "1.2.3.4") doc_empty
                          (example_machine []))) =
    [SpiderFootEvent "RAW_RIR_DATA" (PyStr "{}") module_name (example_event "1.2.3.4")] /\
  notified (effects_of (extract (list response) (example_event "1.2.3.4") doc_no_services
                          (example_machine []))) <>
  notified (effects_of (extract (list response) (example_event "1.2.3.4") doc_empty
                          (example_machine []))).
Proof.
  split; [reflexivity |]. split; [reflexivity |]. discriminate.
Qed.

Lemma empty_as_absent_witness :
  (exists o t,
      extract (list response) (example_event "1.2.3.4") doc_no_services (example_machine []) =
        (o, example_machine [],
         Notify (raw_data (example_event "1.2.3.4") doc_no_services) :: t) /\
      extract (list response) (example_event "1.2.3.4") doc_empty (example_machine []) =
        (o, example_machine [],
         Notify (raw_data (example_event "1.2.3.4") doc_empty) :: t)) /\
  service_body (list response) (example_event "1.2.3.4")
    (PyDict [("port", PyStr "443"); ("software", PyDict [])]) (example_machine []) =
  service_body (list response) (example_event "1.2.3.4")
    (PyDict [("port", PyStr "443")]) (example_machine []).
Proof.
  pose proof (empty_as_absent (list response) (example_event "1.2.3.4") (example_machine []))
    as [Hd Hs].
  split.
  - apply (Hd "Services" [("Services", PyList [])] []); try reflexivity.
    + left. reflexivity.
    + intros k' Hk. cbn -[String.eqb]. destruct (String.eqb "Services" k') eqn:E; [| reflexivity].
      apply String.eqb_eq in E. congruence.
  - apply (Hs "software"); try reflexivity.
    + right. right. reflexivity.
    + intros k' Hk. cbn -[String.eqb]. destruct (String.eqb "port" k'); [reflexivity |].
      destruct (String.eqb "software" k') eqn:E; [| reflexivity].
      apply String.eqb_eq in E. congruence.
Defined.

(** * Further properties on the scripted transport *)

Example doc_example_facts :
  map pType (doc_facts (example_event "1.2.3.4") doc_example) =
    ["RAW_RIR_DATA"; "TCP_PORT_OPEN"; "WEBSERVER_BANNER"; "GEOINFO"; "SOFTWARE_USED";
     "OPERATING_SYSTEM"; "LEAKSITE_CONTENT"].
Proof. reflexivity. Qed.

Example setup_opts_example :
  let o := setup_opts default_opts [("api_key", PyStr "k3y"); ("verify", PyBool true)] in
  o !! "api_key" = Some (PyStr "k3y") /\ o !! "delay" = Some (PyInt 1) /\
  o !! "verify" = Some (PyBool true) /\ o !! "timeout" = None.
Proof. repeat split. Qed.

Lemma unwatched_event_recorded_witness :
  let ev := {| eventType := "INTERNET_NAME"; module := "sfp_dnsresolve"; data := "1.2.3.4" |} in
  let m := example_machine [example_response "200" (Some "{}")] in
  fetches (effects_of (handleEvent (list response) scripted loads_example ev m)) = 0%nat /\
  handleEvent (list response) scripted loads_example (example_event "1.2.3.4")
    (with_result "1.2.3.4" m) = (Ret tt, with_result "1.2.3.4" m, []).
Proof.
  intros ev m.
  destruct (unwatched_event_recorded (list response) scripted loads_example ev
              (example_event "1.2.3.4") m eq_refl eq_refl
              ltac:(intros [H | []]; discriminate H) eq_refl)
    as (Hrun & _ & _ & Hnext).
  split; [rewrite Hrun; reflexivity | exact Hnext].
Defined.

Lemma notifies_iff_payload_witness :
  let m := example_machine [example_response "200" (Some "{}")] in
  notified (effects_of (handleEvent (list response) scripted loads_example
                          (example_event "1.2.3.4") m)) <> [].
Proof.
  intros m.
  destruct (notifies_iff_payload (list response) scripted loads_example
              (example_event "1.2.3.4") m eq_refl eq_refl eq_refl ltac:(discriminate))
    as [Hiff _].
  apply Hiff. exists "{}", (PyDict []).
  split; [reflexivity | split; [reflexivity | split; [reflexivity | discriminate]]].
Defined.

Lemma negative_delay_raises_witness :
  let o := {| api_key := "k3y"; delay := -1; _useragent := "SpiderFoot" |} in
  let m := {| self := setup o; world := [example_response "429" None] |} in
  let r := handleEvent (list response) scripted loads_example (example_event "1.2.3.4") m in
  delay (self_opts (self m)) < 0 /\
  outcome_of r = Raise ValueError /\ errorState (self (machine_of r)) = false.
Proof.
  intros o m r. split; [reflexivity |].
  destruct (negative_delay_raises (list response) scripted loads_example
              (example_event "1.2.3.4") m eq_refl eq_refl eq_refl eq_refl)
    as (Hrun & He & _).
  unfold r. rewrite Hrun. split; [reflexivity | exact He].
Defined.

Lemma target_fetched_once_witness :
  let m := example_machine [example_response "200" (Some "{}")] in
  let evs := [example_event "1.2.3.4"; example_event "1.2.3.4"] in
  errorState (self (with_errorState m)) = true /\
  fetches_of "1.2.3.4"
    (effects_of (session (list response) scripted loads_example evs (with_errorState m))) =
    0%nat.
Proof.
  intros m evs. split; [reflexivity |].
  apply (proj2 (target_fetched_once (list response) scripted loads_example "1.2.3.4" evs
                  (with_errorState m))).
  left. reflexivity.
Defined.

Lemma extract_facts_witness :
  well_shaped doc_example = true /\
  extract (list response) (example_event "1.2.3.4") doc_example (example_machine []) =
    (Ret tt, example_machine [],
     map Notify (doc_facts (example_event "1.2.3.4") doc_example)).
Proof.
  split; [reflexivity |].
  apply (extract_facts (list response) (example_event "1.2.3.4") doc_example
           (example_machine []) eq_refl).
Defined.

Lemma server_str_banners_witness :
  length
    (notified
       (effects_of
          (service_headers (list response) (example_event "1.2.3.4")
             (PyDict [("headers", PyDict [("Server", PyStr "nginx")])])
             (example_machine [])))) = 5%nat.
Proof.
  apply (proj2 (server_str_banners (list response) (example_event "1.2.3.4")
                  [("headers", PyDict [("Server", PyStr "nginx")])]
                  [("Server", PyStr "nginx")] "nginx" (example_machine [])
                  eq_refl eq_refl)).
Defined.


Lemma empty_entry_skipped_witness :
  exists o t,
    extract (list response) (example_event "1.2.3.4")
      (PyDict [("Leaks", PyList [PyDict []; PyDict [("data", PyStr "dump1")]])])
      (example_machine []) =
      (o, example_machine [],
       Notify (raw_data (example_event "1.2.3.4")
                 (PyDict [("Leaks", PyList [PyDict []; PyDict [("data", PyStr "dump1")]])]))
       :: t) /\
    extract (list response) (example_event "1.2.3.4")
      (PyDict [("Leaks", PyList [PyDict [("data", PyStr "dump1")]])])
      (example_machine []) =
      (o, example_machine [],
       Notify (raw_data (example_event "1.2.3.4")
                 (PyDict [("Leaks", PyList [PyDict [("data", PyStr "dump1")]])]))
       :: t).
Proof.
  apply (empty_entry_skipped (list response) (example_event "1.2.3.4") "Leaks"
           [("Leaks", PyList [PyDict []; PyDict [("data", PyStr "dump1")]])]
           [("Leaks", PyList [PyDict [("data", PyStr "dump1")]])]
           [] [PyDict [("data", PyStr "dump1")]] (example_machine []));
    [right; reflexivity | reflexivity | reflexivity |].
  intros k' Hk. cbn -[String.eqb]. destruct (String.eqb "Leaks" k') eqn:E; [| reflexivity].
  apply String.eqb_eq in E. congruence.
Defined.

Lemma handleEvent_returns_witness :
  outcome_of
    (handleEvent (list response) scripted (loads_doc doc_example) (example_event "1.2.3.4")
       (example_machine [example_response "200" (Some "{}")])) = Ret tt.
Proof.
  apply (handleEvent_returns (list response) scripted (loads_doc doc_example)
           (example_event "1.2.3.4") (example_machine [example_response "200" (Some "{}")])).
  - discriminate.
  - intros body doc H. injection H as <-. right. reflexivity.
Defined.

Lemma session_requests_witness :
  let m := example_machine [example_response "404" None] in
  let r := host_request (self_opts (self m)) "1.2.3.4" in
  In (Fetch r)
    (effects_of (session (list response) scripted loads_example [example_event "1.2.3.4"] m)) /\
  exists ev,
    In ev [example_event "1.2.3.4"] /\
    r = {| url := "https://leakix.net/host/" ++ data ev;
           headers := [("Accept", "application/json");
                       ("api-key", api_key (self_opts (self m)))];
           timeout := 15;
           useragent := _useragent (self_opts (self m)) |}.
Proof.
  intros m r.
  assert (Hin : In (Fetch r)
                  (effects_of (session (list response) scripted loads_example
                                 [example_event "1.2.3.4"] m))).
  { cbn. right. right. right. left. reflexivity. }
  split; [exact Hin |].
  apply (session_requests (list response) scripted loads_example
           [example_event "1.2.3.4"] m r Hin).
Defined.

Lemma session_keeps_witness :
  let m := with_result "8.8.8.8" (example_machine [example_response "500" None]) in
  let m' :=
    machine_of (session (list response) scripted loads_example [example_event "1.2.3.4"] m) in
  is_Some (results (self m) !! "8.8.8.8") /\
  is_Some (results (self m') !! "8.8.8.8") /\
  self_opts (self m') = self_opts (self m).
Proof.
  intros m m'.
  assert (Hs : is_Some (results (self m) !! "8.8.8.8")) by (exists true; reflexivity).
  destruct (session_keeps (list response) scripted loads_example [example_event "1.2.3.4"] m)
    as (Ho & Hk & _).
  split; [exact Hs | split; [apply Hk; exact Hs | exact Ho]].
Defined.

Lemma parse_classification_witness :
  outcome_of (parseAPIResponse (list response) loads_example
                (example_response "200" (Some "{}")) (example_machine [])) =
    Ret (PyDict []) /\
  outcome_of (parseAPIResponse (list response) loads_example
                (example_response "200" (Some "<html>")) (example_machine [])) =
    Ret PyNone.
Proof.
  split.
  - apply (proj1 (parse_classification (list response) loads_example
                    (example_response "200" (Some "{}")) (example_machine []))
             "{}" (PyDict [])); reflexivity.
  - apply (proj1 (proj2 (parse_classification (list response) loads_example
                           (example_response "200" (Some "<html>")) (example_machine [])))).
    intros body doc _ Hb Hj. injection Hb as <-. discriminate Hj.
Defined.
